(** * PhoneInput: the country selector and number field of clerk-js

    A shallow embedding of
    [packages/clerk-js/src/ui.retheme/elements/PhoneInput/PhoneInput.tsx].

    The component is a React function component.  Its callbacks are modelled
    as functions that return the list of effects they perform, in order; the
    effects are then interpreted over a [World] that holds what the callbacks
    can reach: the state kept by the [useFormattedPhoneNumber] hook, the
    [phoneInputRef] cell, the keyboard focus, the dependency remembered by
    [useEffect], the calls handed to the [onChange] prop and the module-level
    array [countryOptions].

    The file imports [IsoToCountryMap] and [useFormattedPhoneNumber] and
    does not define them: the table, [parsePhoneString], [numberWithCode]
    and [formattedNumber] are variables of the section, and the setters of
    the hook are modelled in [Module Hook].

    JavaScript strings are modelled by [string], the bytes of their UTF-8
    form.  [toLowerCase] is written out for strings of ASCII characters,
    where it folds the letters A to Z; for any other string it follows the
    case mappings of the Unicode Character Database, which are a variable
    of the section ([unicodeLower]). *)

From Stdlib Require Import Ascii NArith.
From stdpp Require Import gmap strings list fin_maps.

(** ** Strings *)

Module Js.

(** [s.startsWith(t)] *)
Fixpoint startsWith (s t : string) {struct t} : bool :=
  match t, s with
  | EmptyString, _ => true
  | String _ _, EmptyString => false
  | String c t', String d s' => Ascii.eqb c d && startsWith s' t'
  end.

(** [s.includes(t)]: [t] occurs somewhere in [s]. *)
Fixpoint includes (s t : string) : bool :=
  startsWith s t ||
  match s with
  | EmptyString => false
  | String _ s' => includes s' t
  end.

(** A letter from A to Z folded to its small form; any other character as
    it is. *)
Definition lower (c : ascii) : ascii :=
  let n := N_of_ascii c in
  if ((65 <=? n) && (n <=? 90))%N then ascii_of_N (n + 32) else c.

(** The letters A to Z of a string folded to a to z. *)
Fixpoint lowerAscii (s : string) : string :=
  match s with
  | EmptyString => EmptyString
  | String c s' => String (lower c) (lowerAscii s')
  end.

(** A letter from a to z raised to its capital form; any other character
    as it is. *)
Definition upper (c : ascii) : ascii :=
  let n := N_of_ascii c in
  if ((97 <=? n) && (n <=? 122))%N then ascii_of_N (n - 32) else c.

(** The letters a to z of a string raised to A to Z. *)
Fixpoint upperAscii (s : string) : string :=
  match s with
  | EmptyString => EmptyString
  | String c s' => String (upper c) (upperAscii s')
  end.

(** Every character of the string is an ASCII character. *)
Fixpoint isAscii (s : string) : bool :=
  match s with
  | EmptyString => true
  | String c s' => (N_of_ascii c <? 128)%N && isAscii s'
  end.

(** [s.toLowerCase()].  On a string of ASCII characters it folds the letters
    A to Z and leaves the rest.  On any other string it applies the case
    mappings of the Unicode Character Database, which can change the length
    of a string and depend on what stands around a character; they are not
    written out: [unicodeLower] stands for them. *)
Definition toLowerCase (unicodeLower : string -> string) (s : string) : string :=
  if isAscii s then lowerAscii s else unicodeLower s.

(** The characters of a string. *)
Fixpoint chars (s : string) : list ascii :=
  match s with
  | EmptyString => []
  | String c s' => c :: chars s'
  end.

(** [t] is a substring of [s]. *)
Definition substring_of (t s : string) : Prop :=
  exists pre post : string, s = pre +:+ t +:+ post.

(** [f] works on the two sides of a space apart.  The lower-casing of
    JavaScript does: a space has no case, maps to itself, and ends the
    context that the mapping of a character looks at. *)
Definition splits_at_space (f : string -> string) : Prop :=
  forall a b : string, f (a +:+ " " +:+ b) = f a +:+ " " +:+ f b.

End Js.

(** ** The country table ([countryCodeData]) *)

Definition CountryIso := string.

Record CountryEntry := {
  iso : CountryIso;
  name : string;
  code : string
}.

(** A [Map] of JavaScript, as the list of its entries in insertion order. *)
Definition JsMap (K V : Type) := list (K * V).

Definition values {K V : Type} (m : JsMap K V) : list V := map snd m.

(** ** Select options *)

Record SelectOption := {
  searchTerm : string;
  value : string;
  country : CountryEntry
}.

Definition createSelectOption (country : CountryEntry) : SelectOption :=
  {| searchTerm := iso country +:+ " " +:+ name country +:+ " " +:+ code country;
     value := iso country +:+ " " +:+ name country +:+ " " +:+ code country;
     country := country |}.

(** [options.find(o => o.country.iso === iso) || options[0]];
    [None] stands for [undefined]. *)
Definition selectedCountryOption (options : list SelectOption) (iso0 : CountryIso)
  : option SelectOption :=
  match find (fun o => String.eqb (iso (country o)) iso0) options with
  | Some o => Some o
  | None => head options
  end.

(** ** Events and effects *)

Definition Element := nat.
Definition Callback := nat.

Record ChangeEvent := { target_value : string }.

(** [clipboardData.getData(format)] *)
Record ClipboardEvent := { getData : string -> string }.

(** What a callback can do to the world.  [WriteOptions] is an assignment
    into the module's [countryOptions] array or into one of its options and
    entries, which JavaScript allows to any code that holds the array; no
    callback of the file performs it. *)
Inductive Effect :=
| PreventDefault
| SetNumber (s : string)
| SetIso (i : CountryIso)
| SetNumberAndIso (s : string)
| Focus (el : Element)
| OnChangeProp (f : Callback) (e : ChangeEvent)
| WriteOptions (opts : list SelectOption).

Definition handlePaste (e : ClipboardEvent) : list Effect :=
  PreventDefault ::
  let inputValue := getData e "text" in
  if Js.includes inputValue "+" then [SetNumberAndIso inputValue]
  else [SetNumber inputValue].

Definition handlePhoneNumberChange (e : ChangeEvent) : list Effect :=
  let inputValue := target_value e in
  if Js.includes inputValue "+" then [SetNumberAndIso inputValue]
  else [SetNumber inputValue].

(** The [onChange] of [Select]; [current] is [phoneInputRef.current]. *)
Definition selectOnChange (current : option Element) (opt : SelectOption)
  : list Effect :=
  SetIso (iso (country opt)) ::
  match current with
  | Some el => [Focus el]
  | None => []
  end.

(** ** The state kept by [useFormattedPhoneNumber] *)

Module Hook.

(** Modelled from the spec: [useFormattedPhoneNumber] is not part of the
    file; its transient state is the current ISO selection and the current
    local number. *)
Record State := { iso : CountryIso; number : string }.

(** Modelled from the spec: [setNumber] of the absent hook is a
    local-number edit only. *)
Definition setNumber (s : string) (st : State) : State :=
  {| iso := iso st; number := s |}.

(** Modelled from the spec: [setIso] of the absent hook updates the ISO. *)
Definition setIso (i : CountryIso) (st : State) : State :=
  {| iso := i; number := number st |}.

(** Modelled from the spec: [setNumberAndIso] of the absent hook replaces
    both the number and the country inferred from the string; the inference
    itself ([parsePhoneString]) is a parameter. *)
Definition setNumberAndIso (parsePhoneString : string -> State)
    (s : string) (st : State) : State :=
  parsePhoneString s.

End Hook.

(** ** Props *)

Inductive Value :=
| VUndefined
| VStr (s : string)
| VNum (n : Z)
| VBool (b : bool)
| VFun (f : Callback)
| VOnPaste (h : ClipboardEvent -> list Effect)
| VOnChange (h : ChangeEvent -> list Effect)
| VSx.

(** [const { onChange, value, locationBasedCountryIso, sx, ...rest } = props] *)
Definition rest (props : gmap string Value) : gmap string Value :=
  delete "sx" (delete "locationBasedCountryIso"
    (delete "value" (delete "onChange" props))).

(** [onChangeProp?.({ target: { value: numberWithCode } })]; the prop is a
    handler or is missing. *)
Definition callOnChangeProp (onChangeProp : option Value) (numberWithCode : string)
  : list Effect :=
  match onChangeProp with
  | Some (VFun f) => [OnChangeProp f {| target_value := numberWithCode |}]
  | _ => []
  end.

(** ** The world the callbacks act on *)

Record World := {
  hook : Hook.State;
  phoneInputRef : option Element;
  activeElement : option Element;
  effectDeps : option string;
  onChangeCalls : list (Callback * ChangeEvent);
  optionsStore : list SelectOption
}.

Definition with_hook (h : Hook.State) (w : World) : World :=
  {| hook := h; phoneInputRef := phoneInputRef w;
     activeElement := activeElement w; effectDeps := effectDeps w;
     onChangeCalls := onChangeCalls w; optionsStore := optionsStore w |}.

Definition with_focus (el : Element) (w : World) : World :=
  {| hook := hook w; phoneInputRef := phoneInputRef w;
     activeElement := Some el; effectDeps := effectDeps w;
     onChangeCalls := onChangeCalls w; optionsStore := optionsStore w |}.

Definition with_deps (d : string) (w : World) : World :=
  {| hook := hook w; phoneInputRef := phoneInputRef w;
     activeElement := activeElement w; effectDeps := Some d;
     onChangeCalls := onChangeCalls w; optionsStore := optionsStore w |}.

Definition with_call (f : Callback) (e : ChangeEvent) (w : World) : World :=
  {| hook := hook w; phoneInputRef := phoneInputRef w;
     activeElement := activeElement w; effectDeps := effectDeps w;
     onChangeCalls := onChangeCalls w ++ [(f, e)];
     optionsStore := optionsStore w |}.

Definition with_options (opts : list SelectOption) (w : World) : World :=
  {| hook := hook w; phoneInputRef := phoneInputRef w;
     activeElement := activeElement w; effectDeps := effectDeps w;
     onChangeCalls := onChangeCalls w; optionsStore := opts |}.

(** The effect writes the module's array. *)
Definition writesOptions (eff : Effect) : bool :=
  match eff with
  | WriteOptions _ => true
  | _ => false
  end.

Inductive Event :=
| Paste (e : ClipboardEvent)
| Change (e : ChangeEvent)
| SelectCountry (opt : SelectOption)
| Rerender.

(** ** What a render shows *)

(** [CountryCodeListItem]: the check mark is visible for the selected item
    only ([isSelected] may be missing), next to the name and "+code". *)
Record ListItem := {
  checkVisible : bool;
  itemName : string;
  itemCode : string
}.

Definition CountryCodeListItem (isSelected : option bool) (country : CountryEntry)
  : ListItem :=
  {| checkVisible := match isSelected with Some true => true | _ => false end;
     itemName := name country;
     itemCode := "+" +:+ code country |}.

(** The [renderOption] handed to [Select]. *)
Definition renderOption (opt : SelectOption) (index : nat) (isSelected : bool)
  : ListItem :=
  CountryCodeListItem (Some isSelected) (country opt).

(** The data a render of [PhoneInputBase] puts on the page: the [value] of
    [Select], the text of the button, the "+code" before the number, the
    flags read off [rest] and the props of [Input]. *)
Record View := {
  selectValue : string;
  buttonText : string;
  dialCode : string;
  buttonDisabled : option Value;
  boxHasError : option Value;
  input : gmap string Value
}.


(** ** Notions used to state properties *)

(** The values carried by the calls made to the [onChange] prop. *)
Definition emitted (calls : list (Callback * ChangeEvent)) : list string :=
  map (fun c => target_value c.2) calls.

(** No two neighbours of the list are equal. *)
Fixpoint distinct_neighbours (l : list string) : Prop :=
  match l with
  | x :: (y :: _) as t => x <> y /\ distinct_neighbours t
  | _ => True
  end.

(** The props carry an [onChange] handler. *)
Definition handled (props : gmap string Value) : Prop :=
  exists f : Callback, props !! "onChange" = Some (VFun f).

(** ** A small table and stand-ins for the absent hook

    Used to run the component on concrete inputs. *)

Definition us : CountryEntry := {| iso := "us"; name := "United States"; code := "1" |}.
Definition gr : CountryEntry := {| iso := "gr"; name := "Greece"; code := "30" |}.
Definition gb : CountryEntry := {| iso := "gb"; name := "United Kingdom"; code := "44" |}.

Definition sampleMap : JsMap CountryIso CountryEntry :=
  [("us", us); ("gr", gr); ("gb", gb)].

Definition sampleParse (s : string) : Hook.State :=
  if Js.startsWith s "+30"
  then {| Hook.iso := "gr"; Hook.number := String.substring 3 (String.length s - 3) s |}
  else {| Hook.iso := "us"; Hook.number := s |}.

Definition sampleNumberWithCode (h : Hook.State) : string :=
  match Hook.number h with
  | EmptyString => ""
  | n =>
      "+" +:+
      match find (fun c => String.eqb (iso c) (Hook.iso h)) (values sampleMap) with
      | Some c => code c
      | None => "1"
      end +:+ n
  end.

Definition sampleFormatted (h : Hook.State) : string :=
  "(" +:+ Hook.number h +:+ ")".

Definition samplePaste (text : string) : ClipboardEvent :=
  {| getData := fun format => if String.eqb format "text" then text else "" |}.

Definition sampleTyped (text : string) : ChangeEvent :=
  {| target_value := text |}.

Definition ax : CountryEntry :=
  {| iso := "ax"; name := "Åland Islands"; code := "358" |}.

Definition nordicMap : JsMap CountryIso CountryEntry := [("ax", ax); ("gr", gr)].

(** A stand-in for the case mappings of Unicode.  It knows the capital
    letters of the Latin-1 supplement, which UTF-8 writes as the byte 195
    and one byte from 128 to 158 (151, the multiplication sign, apart), and
    the letters A to Z. *)
Definition sampleLatin1 (d : ascii) : ascii :=
  let n := N_of_ascii d in
  if ((128 <=? n) && (n <=? 158) && negb (n =? 151))%N
  then ascii_of_N (n + 32) else d.

Fixpoint sampleUnicodeLower (s : string) : string :=
  match s with
  | EmptyString => EmptyString
  | String c s' =>
      if (N_of_ascii c =? 195)%N then
        match s' with
        | EmptyString => String c EmptyString
        | String d s'' => String c (String (sampleLatin1 d) (sampleUnicodeLower s''))
        end
      else String (Js.lower c) (sampleUnicodeLower s')
  end.

Definition sampleProps : gmap string Value := {["onChange" := VFun 1]}.

Definition sampleEvents : list (gmap string Value * Event) :=
  [(sampleProps, Change (sampleTyped "2025550123"));
   (sampleProps, SelectCountry (createSelectOption gr))].

Definition sampleWorld : World :=
  {| hook := {| Hook.iso := "us"; Hook.number := "" |};
     phoneInputRef := Some 7; activeElement := None;
     effectDeps := Some ""; onChangeCalls := [];
     optionsStore := map createSelectOption (values sampleMap) |}.

Section PhoneInputBase.

(** What the file imports and does not define. *)
Variable IsoToCountryMap : JsMap CountryIso CountryEntry.
Variable parsePhoneString : string -> Hook.State.
Variable numberWithCode : Hook.State -> string.
Variable formattedNumber : Hook.State -> string.

(** The case mappings of Unicode that [toLowerCase] applies to a string
    with a character outside ASCII. *)
Variable unicodeLower : string -> string.

(** The [comparator] handed to [Select]. *)
Definition comparator (term : string) (opt : SelectOption) : bool :=
  Js.includes (Js.toLowerCase unicodeLower (searchTerm opt))
              (Js.toLowerCase unicodeLower term).

(** [const countryOptions = [...IsoToCountryMap.values()].map(createSelectOption)] *)
Definition countryOptions : list SelectOption :=
  map createSelectOption (values IsoToCountryMap).

(** The world when the module has been loaded and the hook initialised to
    [h], before the first commit. *)
Definition initialWorld (h : Hook.State) : World :=
  {| hook := h; phoneInputRef := None; activeElement := None;
     effectDeps := None; onChangeCalls := [];
     optionsStore := countryOptions |}.

(** What one effect does to the world; [preventDefault] marks the event and
    leaves the world alone. *)
Definition exec (eff : Effect) (w : World) : World :=
  match eff with
  | PreventDefault => w
  | SetNumber s => with_hook (Hook.setNumber s (hook w)) w
  | SetIso i => with_hook (Hook.setIso i (hook w)) w
  | SetNumberAndIso s =>
      with_hook (Hook.setNumberAndIso parsePhoneString s (hook w)) w
  | Focus el => with_focus el w
  | OnChangeProp f e => with_call f e w
  | WriteOptions opts => with_options opts w
  end.

(** The effects of a callback, in the order it performs them. *)
Definition run (effs : list Effect) (w : World) : World :=
  fold_left (fun w eff => exec eff w) effs w.

(** [useEffect(effect, [dep])]: the effect runs at the first commit and at
    every commit whose [dep] differs from the one of the commit before. *)
Definition useEffect (effect : list Effect) (dep : string) (w : World) : World :=
  if bool_decide (effectDeps w = Some dep) then w
  else run effect (with_deps dep w).

(** A render of the component followed by its commit:
    [useEffect(callOnChangeProp, [numberWithCode])]. *)
Definition commit (props : gmap string Value) (w : World) : World :=
  useEffect (callOnChangeProp (props !! "onChange") (numberWithCode (hook w)))
            (numberWithCode (hook w)) w.

(** The first commit attaches the number input [el] to [phoneInputRef]. *)
Definition mount (props : gmap string Value) (el : Element) (h : Hook.State)
  : World :=
  let w := initialWorld h in
  commit props
    {| hook := hook w; phoneInputRef := Some el;
       activeElement := activeElement w; effectDeps := effectDeps w;
       onChangeCalls := onChangeCalls w; optionsStore := optionsStore w |}.

(** The callback the component attaches for each event. *)
Definition handler (w : World) (ev : Event) : list Effect :=
  match ev with
  | Paste e => handlePaste e
  | Change e => handlePhoneNumberChange e
  | SelectCountry opt => selectOnChange (phoneInputRef w) opt
  | Rerender => []
  end.

(** One event: its callback runs, the component renders again and commits. *)
Definition step (props : gmap string Value) (w : World) (ev : Event) : World :=
  commit props (run (handler w ev) w).

(** A run: each event comes with the props of the render that follows it. *)
Definition steps (w : World) (evs : list (gmap string Value * Event)) : World :=
  fold_left (fun w pe => step pe.1 w pe.2) evs w.

(** The props object of [<Input value=.. onPaste=.. onChange=..
    maxLength={25} type='tel' sx=.. {...rest} />]: later properties
    replace earlier ones, so [rest], spread last, is the left operand of the
    union. *)
Definition inputProps (props : gmap string Value) (w : World)
  : gmap string Value :=
  rest props ∪
  <["value" := VStr (formattedNumber (hook w))]>
  (<["onPaste" := VOnPaste handlePaste]>
  (<["onChange" := VOnChange handlePhoneNumberChange]>
  (<["maxLength" := VNum 25]>
  (<["type" := VStr "tel"]>
  (<["sx" := VSx]> ∅))))).

(** The option shown as selected, read from the module-level array. *)
Definition selected (w : World) : option SelectOption :=
  selectedCountryOption (optionsStore w) (Hook.iso (hook w)).

(** What [PhoneInputBase] returns; [None] when the render throws, which
    [selectedCountryOption.value] does on [undefined]. *)
Definition PhoneInputBase (props : gmap string Value) (w : World) : option View :=
  match selected w with
  | None => None
  | Some o =>
      Some {| selectValue := value o;
              buttonText := Hook.iso (hook w);
              dialCode := "+" +:+ code (country o);
              buttonDisabled := rest props !! "isDisabled";
              boxHasError := rest props !! "hasError";
              input := inputProps props w |}
  end.

(** ** Strings *)

Lemma append_nil (b : string) : "" +:+ b = b.
Proof. reflexivity. Qed.

Lemma append_cons (c : ascii) (a b : string) :
  String c a +:+ b = String c (a +:+ b).
Proof. reflexivity. Qed.

Lemma append_assoc (a b c : string) : (a +:+ b) +:+ c = a +:+ b +:+ c.
Proof.
  induction a as [|x a IH]; [done|]. rewrite !append_cons. by f_equal.
Qed.

Lemma startsWith_spec (s t : string) :
  Js.startsWith s t = true <-> exists post, s = t +:+ post.
Proof.
  revert s. induction t as [|c t IH]; intros s; simpl.
  - split; [intros _; by exists s | done].
  - destruct s as [|d s]; simpl.
    + split; [done | intros [post H]; discriminate].
    + rewrite andb_true_iff, Ascii.eqb_eq, IH. split.
      * intros [-> [post ->]]. by exists post.
      * intros [post H]. rewrite append_cons in H. injection H as -> ->.
        split; [done | by exists post].
Qed.

Lemma includes_spec (s t : string) :
  Js.includes s t = true <-> Js.substring_of t s.
Proof.
  unfold Js.substring_of.
  induction s as [|d s IH]; simpl; rewrite orb_true_iff, startsWith_spec.
  - split.
    + intros [[post H]|H]; [|done]. by exists "", post.
    + intros (pre & post & H). left. destruct pre; [by exists post|done].
  - rewrite IH. split.
    + intros [[post H]|(pre & post & H)].
      * by exists "", post.
      * exists (String d pre), post. rewrite append_cons. by rewrite H.
    + intros (pre & post & H). destruct pre as [|d' pre].
      * left. by exists post.
      * right. exists pre, post. rewrite append_cons in H. by injection H.
Qed.

Lemma includes_char (s : string) (c : ascii) :
  Js.includes s (String c "") = true <-> In c (Js.chars s).
Proof.
  induction s as [|d s IH]; simpl.
  - split; [done | intros []].
  - rewrite orb_true_iff, IH, andb_true_iff, Ascii.eqb_eq. split.
    + intros [[-> _]|H]; [by left | by right].
    + intros [->|H]; [left; split; [done | by destruct s] | by right].
Qed.

Lemma includes_char_false (s : string) (c : ascii) :
  Js.includes s (String c "") = false <-> ~ In c (Js.chars s).
Proof.
  rewrite <- includes_char. destruct (Js.includes s (String c "")); split;
    try done; intros H; by destruct H.
Qed.

Lemma lowerAscii_app (a b : string) :
  Js.lowerAscii (a +:+ b) = Js.lowerAscii a +:+ Js.lowerAscii b.
Proof.
  induction a as [|c a IH]; [done|].
  rewrite append_cons. simpl. rewrite append_cons. by f_equal.
Qed.

Lemma isAscii_app (a b : string) :
  Js.isAscii (a +:+ b) = Js.isAscii a && Js.isAscii b.
Proof.
  induction a as [|c a IH]; [done|].
  rewrite append_cons. simpl. by rewrite IH, andb_assoc.
Qed.

Lemma lower_idem (c : ascii) : Js.lower (Js.lower c) = Js.lower c.
Proof. by destruct c as [[] [] [] [] [] [] [] []]. Qed.

Lemma lower_upper (c : ascii) : Js.lower (Js.upper c) = Js.lower c.
Proof. by destruct c as [[] [] [] [] [] [] [] []]. Qed.

Lemma isAscii_lower (c : ascii) :
  (N_of_ascii (Js.lower c) <? 128)%N = (N_of_ascii c <? 128)%N.
Proof. by destruct c as [[] [] [] [] [] [] [] []]. Qed.

Lemma isAscii_upper (c : ascii) :
  (N_of_ascii (Js.upper c) <? 128)%N = (N_of_ascii c <? 128)%N.
Proof. by destruct c as [[] [] [] [] [] [] [] []]. Qed.

Lemma lowerAscii_idem (s : string) :
  Js.lowerAscii (Js.lowerAscii s) = Js.lowerAscii s.
Proof. induction s as [|c s IH]; simpl; [done | by rewrite lower_idem, IH]. Qed.

Lemma lowerAscii_upperAscii (s : string) :
  Js.lowerAscii (Js.upperAscii s) = Js.lowerAscii s.
Proof. induction s as [|c s IH]; simpl; [done | by rewrite lower_upper, IH]. Qed.

Lemma isAscii_lowerAscii (s : string) :
  Js.isAscii (Js.lowerAscii s) = Js.isAscii s.
Proof. induction s as [|c s IH]; simpl; [done | by rewrite isAscii_lower, IH]. Qed.

Lemma isAscii_upperAscii (s : string) :
  Js.isAscii (Js.upperAscii s) = Js.isAscii s.
Proof. induction s as [|c s IH]; simpl; [done | by rewrite isAscii_upper, IH]. Qed.

Lemma length_lowerAscii (s : string) :
  String.length (Js.lowerAscii s) = String.length s.
Proof. induction s as [|c s IH]; simpl; [done | by rewrite IH]. Qed.

Lemma length_append (a b : string) :
  String.length (a +:+ b) = String.length a + String.length b.
Proof.
  induction a as [|c a IH]; [done|]. rewrite append_cons. simpl. by rewrite IH.
Qed.

(** On a string of ASCII characters [toLowerCase] is the fold of A to Z. *)
Lemma toLowerCase_ascii (s : string) :
  Js.isAscii s = true -> Js.toLowerCase unicodeLower s = Js.lowerAscii s.
Proof. intros H. unfold Js.toLowerCase. by rewrite H. Qed.

(** An ASCII string, its upper-case form and its lower-case form have the
    same lower-case form. *)
Lemma toLowerCase_case (s : string) :
  Js.isAscii s = true ->
  Js.toLowerCase unicodeLower (Js.upperAscii s) = Js.toLowerCase unicodeLower s /\
  Js.toLowerCase unicodeLower (Js.lowerAscii s) = Js.toLowerCase unicodeLower s.
Proof.
  intros H.
  rewrite !toLowerCase_ascii
    by (by rewrite ?isAscii_upperAscii, ?isAscii_lowerAscii).
  by rewrite lowerAscii_upperAscii, lowerAscii_idem.
Qed.

(** The lower-case form of "i n c" is made of those of [i], [n] and [c]. *)
Lemma toLowerCase_fields (i n c : string) :
  Js.isAscii (i +:+ " " +:+ n +:+ " " +:+ c) = true \/
  Js.splits_at_space (Js.toLowerCase unicodeLower) ->
  Js.toLowerCase unicodeLower (i +:+ " " +:+ n +:+ " " +:+ c) =
  Js.toLowerCase unicodeLower i +:+ " " +:+
  Js.toLowerCase unicodeLower n +:+ " " +:+ Js.toLowerCase unicodeLower c.
Proof.
  intros [Hascii|Hsplit].
  - pose proof Hascii as H. rewrite !isAscii_app, !andb_true_iff in H.
    destruct H as (Hi & _ & Hn & _ & Hc).
    rewrite !toLowerCase_ascii by done. by rewrite !lowerAscii_app.
  - by rewrite !Hsplit.
Qed.

(** ** Routing of typed and pasted text *)

Lemma handlePhoneNumberChange_plus (c : ChangeEvent) :
  In "+"%char (Js.chars (target_value c)) ->
  handlePhoneNumberChange c = [SetNumberAndIso (target_value c)].
Proof.
  intros H. apply includes_char in H.
  unfold handlePhoneNumberChange. simpl. by rewrite H.
Qed.

Lemma handlePhoneNumberChange_local (c : ChangeEvent) :
  ~ In "+"%char (Js.chars (target_value c)) ->
  handlePhoneNumberChange c = [SetNumber (target_value c)].
Proof.
  intros H. apply includes_char_false in H.
  unfold handlePhoneNumberChange. simpl. by rewrite H.
Qed.

Lemma handlePaste_change (e : ClipboardEvent) :
  handlePaste e =
  PreventDefault :: handlePhoneNumberChange {| target_value := getData e "text" |}.
Proof. reflexivity. Qed.

Lemma run_cons (eff : Effect) (effs : list Effect) (w : World) :
  run (eff :: effs) w = run effs (exec eff w).
Proof. reflexivity. Qed.

(** C1: a typed or pasted string that contains "+" replaces the number and
    the inferred country through [setNumberAndIso]; any other string
    replaces the local number alone through [setNumber], and the country
    stays as it was. *)
Theorem route_on_contains_plus
    (w : World) (s : string) (e : ClipboardEvent) (c : ChangeEvent) :
  getData e "text" = s ->
  target_value c = s ->
  (In "+"%char (Js.chars s) ->
     handlePaste e = [PreventDefault; SetNumberAndIso s] /\
     handlePhoneNumberChange c = [SetNumberAndIso s] /\
     hook (run (handlePaste e) w) = parsePhoneString s /\
     hook (run (handlePhoneNumberChange c) w) = parsePhoneString s) /\
  (~ In "+"%char (Js.chars s) ->
     handlePaste e = [PreventDefault; SetNumber s] /\
     handlePhoneNumberChange c = [SetNumber s] /\
     hook (run (handlePaste e) w) =
       {| Hook.iso := Hook.iso (hook w); Hook.number := s |} /\
     hook (run (handlePhoneNumberChange c) w) =
       {| Hook.iso := Hook.iso (hook w); Hook.number := s |}).
Proof.
  intros He Hc. rewrite handlePaste_change, He.
  split; intros Hplus.
  - rewrite !handlePhoneNumberChange_plus by (simpl; congruence).
    simpl. by rewrite Hc.
  - rewrite !handlePhoneNumberChange_local by (simpl; congruence).
    simpl. by rewrite Hc.
Qed.

(** C4, as amended: the whole number and the country are replaced, by one
    call to [setNumberAndIso], exactly when the string contains "+",
    wherever it stands (a leading "+" is one such case); exactly when it
    contains none, the local number alone is replaced, by one call to
    [setNumber] and no other. *)
Theorem route_iff_contains_plus (e : ClipboardEvent) (c : ChangeEvent) :
  (handlePhoneNumberChange c = [SetNumberAndIso (target_value c)]
     <-> In "+"%char (Js.chars (target_value c))) /\
  (handlePaste e = [PreventDefault; SetNumberAndIso (getData e "text")]
     <-> In "+"%char (Js.chars (getData e "text"))) /\
  (Js.startsWith (target_value c) "+" = true ->
     handlePhoneNumberChange c = [SetNumberAndIso (target_value c)]) /\
  (Js.startsWith (getData e "text") "+" = true ->
     handlePaste e = [PreventDefault; SetNumberAndIso (getData e "text")]) /\
  (handlePhoneNumberChange c = [SetNumber (target_value c)]
     <-> ~ In "+"%char (Js.chars (target_value c))) /\
  (handlePaste e = [PreventDefault; SetNumber (getData e "text")]
     <-> ~ In "+"%char (Js.chars (getData e "text"))).
Proof.
  assert (Hiff : forall c0 : ChangeEvent,
    handlePhoneNumberChange c0 = [SetNumberAndIso (target_value c0)]
    <-> In "+"%char (Js.chars (target_value c0))).
  { intros c0. split; [|apply handlePhoneNumberChange_plus].
    intros H. apply includes_char. unfold handlePhoneNumberChange in H.
    simpl in H. by destruct (Js.includes (target_value c0) "+"). }
  assert (Hloc : forall c0 : ChangeEvent,
    handlePhoneNumberChange c0 = [SetNumber (target_value c0)]
    <-> ~ In "+"%char (Js.chars (target_value c0))).
  { intros c0. split; [|apply handlePhoneNumberChange_local].
    intros H. apply includes_char_false. unfold handlePhoneNumberChange in H.
    simpl in H. by destruct (Js.includes (target_value c0) "+"). }
  assert (Hpre : forall t : string,
    Js.startsWith t "+" = true -> In "+"%char (Js.chars t)).
  { intros t Ht. apply includes_char. by destruct t; simpl in *; rewrite ?Ht. }
  repeat split.
  - apply Hiff.
  - apply Hiff.
  - intros H. rewrite handlePaste_change in H. injection H as H.
    by apply (Hiff {| target_value := getData e "text" |}).
  - intros H. rewrite handlePaste_change. f_equal.
    by apply (Hiff {| target_value := getData e "text" |}).
  - intros H. by apply Hiff, Hpre.
  - intros H. rewrite handlePaste_change. f_equal.
    by apply (Hiff {| target_value := getData e "text" |}), Hpre.
  - apply Hloc.
  - apply Hloc.
  - intros H. rewrite handlePaste_change in H. injection H as H.
    by apply (Hloc {| target_value := getData e "text" |}).
  - intros H. rewrite handlePaste_change. f_equal.
    by apply (Hloc {| target_value := getData e "text" |}).
Qed.

(** C6: a paste and a text change that carry the same string make the same
    call to [setNumberAndIso] or [setNumber] and leave the same state; the
    paste only cancels the browser's own insertion first. *)
Theorem paste_same_as_change (w : World) (e : ClipboardEvent) (c : ChangeEvent) :
  getData e "text" = target_value c ->
  handlePaste e = PreventDefault :: handlePhoneNumberChange c /\
  (exists call : Effect,
     (call = SetNumberAndIso (target_value c) \/ call = SetNumber (target_value c)) /\
     handlePhoneNumberChange c = [call] /\
     handlePaste e = [PreventDefault; call]) /\
  run (handlePaste e) w = run (handlePhoneNumberChange c) w.
Proof.
  intros H. rewrite handlePaste_change, H. destruct c as [v]. simpl.
  split; [done|]. split; [|done].
  unfold handlePhoneNumberChange. simpl.
  destruct (Js.includes v "+");
    [exists (SetNumberAndIso v) | exists (SetNumber v)];
    (split; [auto | by split]).
Qed.

(** ** The selected country *)

Lemma countryOptions_In (o : SelectOption) :
  In o countryOptions <->
  exists c, In c (values IsoToCountryMap) /\ o = createSelectOption c.
Proof.
  unfold countryOptions. rewrite in_map_iff. split.
  - intros (c & <- & Hc). by exists c.
  - intros (c & Hc & ->). by exists c.
Qed.

Lemma NoDup_iso_unique (l : list CountryEntry) (c c' : CountryEntry) :
  NoDup (map iso l) -> In c l -> In c' l -> iso c = iso c' -> c = c'.
Proof.
  induction l as [|x l IH]; [intros _ []|].
  simpl. intros Hnd [->|Hc] [->|Hc'] Heq; [done| | |].
  - apply NoDup_cons in Hnd as [Hx _]. exfalso. apply Hx.
    rewrite Heq. apply list_elem_of_In, in_map_iff. by exists c'.
  - apply NoDup_cons in Hnd as [Hx _]. exfalso. apply Hx.
    rewrite <- Heq. apply list_elem_of_In, in_map_iff. by exists c.
  - apply NoDup_cons in Hnd as [_ Hnd]. by apply IH.
Qed.

(** C2: the selected option is the option of the table entry whose iso is
    the current ISO (the only such entry when the isos of the table are
    distinct); an ISO that matches no entry yields the first option of the
    table, and nothing else happens. *)
Theorem selected_option_of_iso (i : CountryIso) :
  (forall c : CountryEntry,
     In c (values IsoToCountryMap) -> iso c = i ->
     exists o : SelectOption,
       selectedCountryOption countryOptions i = Some o /\
       In (country o) (values IsoToCountryMap) /\
       iso (country o) = i /\
       o = createSelectOption (country o) /\
       (NoDup (map iso (values IsoToCountryMap)) -> country o = c)) /\
  ((forall c : CountryEntry, In c (values IsoToCountryMap) -> iso c <> i) ->
     selectedCountryOption countryOptions i = head countryOptions /\
     head countryOptions = createSelectOption <$> head (values IsoToCountryMap)) /\
  (values IsoToCountryMap <> [] ->
     exists o : SelectOption, selectedCountryOption countryOptions i = Some o).
Proof.
  unfold selectedCountryOption. split; [|split].
  3: { intros Hne. destruct (find _ countryOptions) as [o|]; [by exists o|].
       unfold countryOptions. destruct (values IsoToCountryMap); [done|].
       simpl. eauto. }
  - intros c Hc Hi.
    destruct (find _ countryOptions) as [o|] eqn:Hfind.
    + apply find_some in Hfind as [Ho Hiso].
      apply String.eqb_eq in Hiso.
      apply countryOptions_In in Ho as (c' & Hc' & ->). simpl in *.
      exists (createSelectOption c'). repeat split; try done.
      intros Hnd. apply (NoDup_iso_unique _ _ _ Hnd Hc' Hc). congruence.
    + exfalso.
      assert (Ho : In (createSelectOption c) countryOptions).
      { apply countryOptions_In. by exists c. }
      apply (find_none _ _ Hfind) in Ho. simpl in Ho.
      apply String.eqb_neq in Ho. done.
  - intros Hnone.
    destruct (find _ countryOptions) as [o|] eqn:Hfind.
    + exfalso. apply find_some in Hfind as [Ho Hiso].
      apply String.eqb_eq in Hiso.
      apply countryOptions_In in Ho as (c' & Hc' & ->).
      by apply (Hnone c').
    + split; [done|]. unfold countryOptions.
      by destruct (values IsoToCountryMap).
Qed.

(** ** Searching the dropdown *)

Lemma fields_in_text (i n c : string) :
  Js.substring_of i (i +:+ " " +:+ n +:+ " " +:+ c) /\
  Js.substring_of n (i +:+ " " +:+ n +:+ " " +:+ c) /\
  Js.substring_of c (i +:+ " " +:+ n +:+ " " +:+ c).
Proof.
  unfold Js.substring_of. repeat split.
  - by exists "", (" " +:+ n +:+ " " +:+ c).
  - exists (i +:+ " "), (" " +:+ c). by rewrite !append_assoc.
  - exists (i +:+ " " +:+ n +:+ " "), "". rewrite !append_assoc. do 4 f_equal.
    by induction c as [|x t IH]; [|rewrite append_cons, <- IH].
Qed.

(** The iso, the name and the dial code of a country match its option. *)
Lemma comparator_fields (c : CountryEntry) :
  Js.isAscii (searchTerm (createSelectOption c)) = true \/
  Js.splits_at_space (Js.toLowerCase unicodeLower) ->
  comparator (iso c) (createSelectOption c) = true /\
  comparator (name c) (createSelectOption c) = true /\
  comparator (code c) (createSelectOption c) = true.
Proof.
  intros H. unfold comparator. simpl in *.
  rewrite !includes_spec, (toLowerCase_fields _ _ _ H).
  apply fields_in_text.
Qed.

(** C9: the comparator accepts an option for a search term exactly when the
    lower-case form of the term is a substring of the lower-case form of the
    text "iso name code" of the option's country.  The case of the letters
    A to Z of a term does not count.  The iso, the name and the dial code of
    a country each find it, since lower-casing works on the two sides of a
    space apart (for a text of ASCII characters this is proved, for any
    other it is the stated property of [toLowerCase]); for a text of ASCII
    characters they find it in upper case too. *)
Theorem comparator_matches_substring (term : string) (o : SelectOption) :
  In o countryOptions ->
  (comparator term o = true <->
     Js.substring_of (Js.toLowerCase unicodeLower term)
       (Js.toLowerCase unicodeLower
          (iso (country o) +:+ " " +:+ name (country o) +:+ " " +:+ code (country o)))) /\
  (Js.isAscii term = true ->
     comparator (Js.upperAscii term) o = comparator term o /\
     comparator (Js.lowerAscii term) o = comparator term o) /\
  (Js.isAscii (searchTerm o) = true \/
   Js.splits_at_space (Js.toLowerCase unicodeLower) ->
     comparator (iso (country o)) o = true /\
     comparator (name (country o)) o = true /\
     comparator (code (country o)) o = true) /\
  (Js.isAscii (searchTerm o) = true ->
     comparator (Js.upperAscii (iso (country o))) o = true /\
     comparator (Js.upperAscii (name (country o))) o = true /\
     comparator (Js.upperAscii (code (country o))) o = true).
Proof.
  intros Ho. apply countryOptions_In in Ho as (c & _ & ->). simpl country.
  split; [unfold comparator; simpl; apply includes_spec|].
  split.
  { intros Hterm. unfold comparator.
    by destruct (toLowerCase_case term Hterm) as [-> ->]. }
  split; [apply comparator_fields|].
  intros Hascii.
  destruct (comparator_fields c (or_introl Hascii)) as (Hi & Hn & Hc).
  pose proof Hascii as H. simpl in H.
  rewrite !isAscii_app, !andb_true_iff in H.
  destruct H as (Ai & _ & An & _ & Ac).
  unfold comparator in *.
  destruct (toLowerCase_case _ Ai) as [-> _].
  destruct (toLowerCase_case _ An) as [-> _].
  by destruct (toLowerCase_case _ Ac) as [-> _].
Qed.

(** ** What effects and commits leave alone *)

Lemma exec_optionsStore (eff : Effect) (w : World) :
  writesOptions eff = false -> optionsStore (exec eff w) = optionsStore w.
Proof. by destruct eff. Qed.

Lemma exec_phoneInputRef (eff : Effect) (w : World) :
  phoneInputRef (exec eff w) = phoneInputRef w.
Proof. by destruct eff. Qed.

Lemma run_optionsStore (effs : list Effect) (w : World) :
  Forall (fun eff => writesOptions eff = false) effs ->
  optionsStore (run effs w) = optionsStore w.
Proof.
  revert w. induction effs as [|eff effs IH]; intros w Hall; [done|].
  apply Forall_cons in Hall as [Heff Hall].
  rewrite run_cons, IH by done. by apply exec_optionsStore.
Qed.

Lemma run_phoneInputRef (effs : list Effect) (w : World) :
  phoneInputRef (run effs w) = phoneInputRef w.
Proof.
  revert w. induction effs as [|eff effs IH]; intros w; [done|].
  rewrite run_cons, IH. apply exec_phoneInputRef.
Qed.

Lemma useEffect_optionsStore (effect : list Effect) (dep : string) (w : World) :
  Forall (fun eff => writesOptions eff = false) effect ->
  optionsStore (useEffect effect dep w) = optionsStore w.
Proof.
  intros Hall. unfold useEffect. case_bool_decide; [done|].
  by rewrite run_optionsStore.
Qed.

Lemma useEffect_phoneInputRef (effect : list Effect) (dep : string) (w : World) :
  phoneInputRef (useEffect effect dep w) = phoneInputRef w.
Proof.
  unfold useEffect. case_bool_decide; [done|]. by rewrite run_phoneInputRef.
Qed.

Lemma callOnChangeProp_cases (p : option Value) (n : string) :
  callOnChangeProp p n = [] \/
  exists f, p = Some (VFun f) /\
            callOnChangeProp p n = [OnChangeProp f {| target_value := n |}].
Proof. destruct p as [[]|]; simpl; eauto. Qed.

Lemma commit_hook (props : gmap string Value) (w : World) :
  hook (commit props w) = hook w.
Proof.
  unfold commit, useEffect. case_bool_decide; [done|].
  by destruct (callOnChangeProp_cases (props !! "onChange")
                 (numberWithCode (hook w))) as [->|(f & _ & ->)].
Qed.

Lemma commit_activeElement (props : gmap string Value) (w : World) :
  activeElement (commit props w) = activeElement w.
Proof.
  unfold commit, useEffect. case_bool_decide; [done|].
  by destruct (callOnChangeProp_cases (props !! "onChange")
                 (numberWithCode (hook w))) as [->|(f & _ & ->)].
Qed.

Lemma commit_effectDeps (props : gmap string Value) (w : World) :
  effectDeps (commit props w) = Some (numberWithCode (hook w)).
Proof.
  unfold commit, useEffect. case_bool_decide; [done|].
  by destruct (callOnChangeProp_cases (props !! "onChange")
                 (numberWithCode (hook w))) as [->|(f & _ & ->)].
Qed.

Lemma handler_cases (w : World) (ev : Event) :
  handler w ev = [] \/
  (exists s, handler w ev = [SetNumber s] \/ handler w ev = [SetNumberAndIso s] \/
             handler w ev = [PreventDefault; SetNumber s] \/
             handler w ev = [PreventDefault; SetNumberAndIso s]) \/
  (exists i, handler w ev = [SetIso i] \/
             exists el, handler w ev = [SetIso i; Focus el]).
Proof.
  destruct ev as [e|c|o|]; simpl.
  - right; left. exists (getData e "text"). unfold handlePaste.
    destruct (Js.includes _ _); eauto.
  - right; left. exists (target_value c). unfold handlePhoneNumberChange. simpl.
    destruct (Js.includes _ _); eauto.
  - right; right. exists (iso (country o)). unfold selectOnChange.
    destruct (phoneInputRef w); eauto.
  - by left.
Qed.

Lemma handler_onChangeCalls (w : World) (ev : Event) :
  onChangeCalls (run (handler w ev) w) = onChangeCalls w /\
  effectDeps (run (handler w ev) w) = effectDeps w.
Proof.
  destruct (handler_cases w ev)
    as [->|[(s & [->|[->|[->| ->]]])|(i & [->|(el & ->)])]]; done.
Qed.

(** No callback of the component writes the module's array. *)
Lemma handler_writes (w : World) (ev : Event) :
  Forall (fun eff => writesOptions eff = false) (handler w ev).
Proof.
  destruct (handler_cases w ev)
    as [->|[(s & [->|[->|[->| ->]]])|(i & [->|(el & ->)])]];
    by repeat constructor.
Qed.

(** Neither does the effect that calls the [onChange] prop. *)
Lemma callOnChangeProp_writes (p : option Value) (n : string) :
  Forall (fun eff => writesOptions eff = false) (callOnChangeProp p n).
Proof.
  destruct (callOnChangeProp_cases p n) as [->|(f & _ & ->)];
    by repeat constructor.
Qed.

Lemma commit_optionsStore (props : gmap string Value) (w : World) :
  optionsStore (commit props w) = optionsStore w.
Proof.
  unfold commit. apply useEffect_optionsStore, callOnChangeProp_writes.
Qed.

Lemma step_optionsStore (props : gmap string Value) (w : World) (ev : Event) :
  optionsStore (step props w ev) = optionsStore w.
Proof.
  unfold step. rewrite commit_optionsStore.
  apply run_optionsStore, handler_writes.
Qed.

Lemma step_phoneInputRef (props : gmap string Value) (w : World) (ev : Event) :
  phoneInputRef (step props w ev) = phoneInputRef w.
Proof.
  unfold step, commit. by rewrite useEffect_phoneInputRef, run_phoneInputRef.
Qed.

Lemma steps_snoc (w : World) (evs : list (gmap string Value * Event))
    (pe : gmap string Value * Event) :
  steps w (evs ++ [pe]) = step pe.1 (steps w evs) pe.2.
Proof. unfold steps. by rewrite fold_left_app. Qed.

(** While the component is mounted the ref holds the number input. *)
Lemma mounted_phoneInputRef (props : gmap string Value) (el : Element)
    (h : Hook.State) (evs : list (gmap string Value * Event)) :
  phoneInputRef (steps (mount props el h) evs) = Some el.
Proof.
  induction evs as [|pe evs IH] using rev_ind.
  - unfold steps, mount, commit. cbn [fold_left].
    by rewrite useEffect_phoneInputRef.
  - by rewrite steps_snoc, step_phoneInputRef.
Qed.

(** From the first commit on, the module-level array is the one computed
    when the module was loaded. *)
Lemma mounted_optionsStore (props : gmap string Value) (el : Element)
    (h : Hook.State) (evs : list (gmap string Value * Event)) :
  optionsStore (steps (mount props el h) evs) = countryOptions.
Proof.
  induction evs as [|pe evs IH] using rev_ind.
  - unfold steps, mount. cbn [fold_left]. by rewrite commit_optionsStore.
  - by rewrite steps_snoc, step_optionsStore.
Qed.

(** The option a render shows as selected is looked up in that array. *)
Lemma mounted_selected (props : gmap string Value) (el : Element)
    (h : Hook.State) (evs : list (gmap string Value * Event)) :
  selected (steps (mount props el h) evs) =
  selectedCountryOption countryOptions
    (Hook.iso (hook (steps (mount props el h) evs))).
Proof. unfold selected. by rewrite mounted_optionsStore. Qed.

(** ** The change event *)

(** C3, as amended: when an event leaves a combined number other than the
    one of the commit before, and the props carry an [onChange] handler,
    exactly one call is added to those made to the handler, and its
    [target.value] is the new combined number; with no [onChange] among the
    props nothing is emitted. *)
Theorem change_event_on_new_number
    (props : gmap string Value) (w : World) (ev : Event) (d : string) :
  effectDeps w = Some d ->
  numberWithCode (hook (step props w ev)) <> d ->
  (forall f : Callback,
     props !! "onChange" = Some (VFun f) ->
     onChangeCalls (step props w ev) =
     onChangeCalls w ++
       [(f, {| target_value := numberWithCode (hook (step props w ev)) |})]) /\
  (props !! "onChange" = None \/ props !! "onChange" = Some VUndefined ->
     onChangeCalls (step props w ev) = onChangeCalls w) /\
  effectDeps (step props w ev) = Some (numberWithCode (hook (step props w ev))).
Proof.
  intros Hd Hnew. unfold step in *. rewrite commit_hook in *.
  destruct (handler_onChangeCalls w ev) as [Hcalls Hdeps].
  set (w1 := run (handler w ev) w) in *.
  split; [|split].
  - intros f Hf. unfold commit, useEffect. rewrite Hf. simpl.
    case_bool_decide as Heq; [congruence|]. simpl. by rewrite Hcalls.
  - intros Hnone. unfold commit, useEffect.
    case_bool_decide as Heq; [congruence|].
    by destruct Hnone as [-> | ->].
  - apply commit_effectDeps.
Qed.

(** ** Choosing a country *)

(** C5: choosing an option of the dropdown sets the current ISO to the iso
    of the option's country and leaves the local number as it was; the
    number input, which [phoneInputRef] holds while the component is
    mounted, receives the keyboard focus. *)
Theorem select_country_sets_iso_and_focus
    (props : gmap string Value) (w : World) (o : SelectOption) :
  Hook.iso (hook (step props w (SelectCountry o))) = iso (country o) /\
  Hook.number (hook (step props w (SelectCountry o))) = Hook.number (hook w) /\
  (forall el : Element,
     phoneInputRef w = Some el ->
     handler w (SelectCountry o) = [SetIso (iso (country o)); Focus el] /\
     activeElement (step props w (SelectCountry o)) = Some el) /\
  (forall (props0 : gmap string Value) (el : Element) (h : Hook.State)
          (evs : list (gmap string Value * Event)),
     w = steps (mount props0 el h) evs ->
     activeElement (step props w (SelectCountry o)) = Some el).
Proof.
  assert (Hfocus : forall el : Element,
    phoneInputRef w = Some el ->
    handler w (SelectCountry o) = [SetIso (iso (country o)); Focus el] /\
    activeElement (step props w (SelectCountry o)) = Some el).
  { intros el Hel. unfold step. rewrite commit_activeElement. simpl.
    unfold selectOnChange. by rewrite Hel. }
  repeat split.
  - unfold step. rewrite commit_hook. simpl. unfold selectOnChange.
    by destruct (phoneInputRef w).
  - unfold step. rewrite commit_hook. simpl. unfold selectOnChange.
    by destruct (phoneInputRef w).
  - by apply Hfocus.
  - by apply Hfocus.
  - intros props0 el h evs ->. by apply Hfocus, mounted_phoneInputRef.
Qed.

(** ** The country table *)

Lemma countryOptions_lookup (i : nat) (k : CountryIso) (c : CountryEntry) :
  IsoToCountryMap !! i = Some (k, c) ->
  countryOptions !! i = Some (createSelectOption c).
Proof.
  unfold countryOptions, values. revert i.
  induction IsoToCountryMap as [|[k' c'] m IH]; intros [|i] H; simplify_eq/=.
  - done.
  - by apply IH.
Qed.

Lemma countryOptions_length : length countryOptions = length IsoToCountryMap.
Proof. unfold countryOptions, values. by rewrite !length_map. Qed.

(** C7: the option list is built from [IsoToCountryMap] when the module is
    loaded and is written by nothing the component does.  No callback of the
    component (text change, paste, country selection) performs a write of
    the array, its options or their entries, and neither does a render with
    its commit; so every step leaves the array as it was, and after the
    first commit and any run it still holds, entry for entry and in the
    order of the table, the option made of each entry, with that very
    entry as its country. *)
Theorem country_options_invariant :
  (forall (w : World) (ev : Event),
     Forall (fun eff => writesOptions eff = false) (handler w ev)) /\
  (forall (props : gmap string Value) (w : World) (ev : Event),
     optionsStore (step props w ev) = optionsStore w) /\
  (forall (props : gmap string Value) (el : Element) (h : Hook.State)
          (evs : list (gmap string Value * Event)),
     length (optionsStore (steps (mount props el h) evs)) =
       length IsoToCountryMap /\
     forall (i : nat) (k : CountryIso) (c : CountryEntry),
       IsoToCountryMap !! i = Some (k, c) ->
       optionsStore (steps (mount props el h) evs) !! i =
       Some {| searchTerm := iso c +:+ " " +:+ name c +:+ " " +:+ code c;
               value := iso c +:+ " " +:+ name c +:+ " " +:+ code c;
               country := c |}).
Proof.
  split; [apply handler_writes|]. split; [apply step_optionsStore|].
  intros props el h evs. rewrite mounted_optionsStore.
  split; [apply countryOptions_length|].
  intros i k c Hi. by rewrite (countryOptions_lookup i k c Hi).
Qed.

(** ** The number input *)

Lemma rest_lookup (props : gmap string Value) (k : string) :
  k <> "onChange" -> k <> "value" -> k <> "locationBasedCountryIso" ->
  k <> "sx" -> rest props !! k = props !! k.
Proof.
  intros. unfold rest. by rewrite !lookup_delete_ne.
Qed.

Lemma rest_value (props : gmap string Value) : rest props !! "value" = None.
Proof.
  unfold rest. rewrite !lookup_delete_ne by done. apply lookup_delete_eq.
Qed.

Lemma rest_onChange (props : gmap string Value) : rest props !! "onChange" = None.
Proof.
  unfold rest. rewrite !lookup_delete_ne by done. apply lookup_delete_eq.
Qed.

(** C8, as amended: the number input is given [maxLength] 25 unless the
    props of the component carry a [maxLength] of their own, which then
    replaces it; the change handler passes the string it is handed to the
    setter whole, whatever its length. *)
Theorem max_length_unless_overridden (props : gmap string Value) (w : World) :
  (props !! "maxLength" = None ->
     inputProps props w !! "maxLength" = Some (VNum 25)) /\
  (forall v : Value,
     props !! "maxLength" = Some v ->
     inputProps props w !! "maxLength" = Some v) /\
  (forall c : ChangeEvent,
     handlePhoneNumberChange c = [SetNumberAndIso (target_value c)] \/
     handlePhoneNumberChange c = [SetNumber (target_value c)]).
Proof.
  repeat split.
  - intros H. unfold inputProps. rewrite lookup_union_r.
    + by simplify_map_eq.
    + by rewrite rest_lookup.
  - intros v H. unfold inputProps. apply lookup_union_Some_l.
    by rewrite rest_lookup.
  - intros c. unfold handlePhoneNumberChange. simpl.
    destruct (Js.includes _ _); auto.
Qed.

(** C10: the number input is controlled: after every event its [value] is
    [formattedNumber] of the state the event left, whatever the props; typed
    text reaches the state through [handlePhoneNumberChange], which the props
    cannot replace, and pasted text through the setters alone, the paste
    handler cancelling the browser's own insertion before it calls them. *)
Theorem number_input_is_controlled
    (props : gmap string Value) (w : World) (ev : Event) :
  inputProps props (step props w ev) !! "value" =
    Some (VStr (formattedNumber (hook (step props w ev)))) /\
  inputProps props w !! "onChange" = Some (VOnChange handlePhoneNumberChange) /\
  (props !! "onPaste" = None ->
     inputProps props w !! "onPaste" = Some (VOnPaste handlePaste)) /\
  (forall e : ClipboardEvent,
     hook (step props w (Paste e)) =
     if Js.includes (getData e "text") "+"
     then Hook.setNumberAndIso parsePhoneString (getData e "text") (hook w)
     else Hook.setNumber (getData e "text") (hook w)) /\
  (forall e : ClipboardEvent,
     exists call : Effect,
       handlePaste e = [PreventDefault; call] /\
       (call = SetNumberAndIso (getData e "text") \/
        call = SetNumber (getData e "text"))).
Proof.
  repeat split.
  - unfold inputProps. rewrite lookup_union_r by apply rest_value.
    by simplify_map_eq.
  - unfold inputProps. rewrite lookup_union_r by apply rest_onChange.
    by simplify_map_eq.
  - intros H. unfold inputProps. rewrite lookup_union_r.
    + by simplify_map_eq.
    + by rewrite rest_lookup.
  - intros e. unfold step. rewrite commit_hook. simpl. unfold handlePaste.
    by destruct (Js.includes _ _).
  - intros e. unfold handlePaste.
    destruct (Js.includes _ _); eexists; split; eauto.
Qed.

(** ** The calls made to the [onChange] prop over a run *)

Lemma commit_same (props : gmap string Value) (w : World) :
  effectDeps w = Some (numberWithCode (hook w)) -> commit props w = w.
Proof.
  intros H. unfold commit, useEffect. by rewrite bool_decide_eq_true_2.
Qed.

Lemma commit_new_handled (props : gmap string Value) (w : World) (f : Callback) :
  effectDeps w <> Some (numberWithCode (hook w)) ->
  props !! "onChange" = Some (VFun f) ->
  onChangeCalls (commit props w) =
  onChangeCalls w ++ [(f, {| target_value := numberWithCode (hook w) |})].
Proof.
  intros Hne Hf. unfold commit, useEffect.
  rewrite bool_decide_eq_false_2 by done. by rewrite Hf.
Qed.

Lemma commit_unhandled (props : gmap string Value) (w : World) :
  ~ handled props -> onChangeCalls (commit props w) = onChangeCalls w.
Proof.
  intros Hno. unfold commit, useEffect. case_bool_decide; [done|].
  destruct (callOnChangeProp_cases (props !! "onChange")
              (numberWithCode (hook w))) as [->|(f & Hf & _)]; [done|].
  exfalso. apply Hno. by exists f.
Qed.

Lemma emitted_snoc (calls : list (Callback * ChangeEvent)) (f : Callback)
    (e : ChangeEvent) :
  emitted (calls ++ [(f, e)]) = emitted calls ++ [target_value e].
Proof. unfold emitted. by rewrite map_app. Qed.

Lemma distinct_neighbours_snoc (l : list string) (v : string) :
  distinct_neighbours l ->
  (forall d, last l = Some d -> d <> v) ->
  distinct_neighbours (l ++ [v]).
Proof.
  induction l as [|x l IH]; [done|].
  destruct l as [|y l].
  - intros _ Hlast. simpl. split; [|done]. by apply Hlast.
  - intros [Hxy Hd] Hlast. change ((x :: y :: l) ++ [v]) with (x :: (y :: l) ++ [v]).
    change ((y :: l) ++ [v]) with (y :: l ++ [v]) at 1.
    split; [done|]. apply IH; [done|]. intros d Hd'. by apply Hlast.
Qed.

(** From the first commit on, the dependency kept by [useEffect] is the
    combined number of the current state. *)
Lemma mounted_settled (props : gmap string Value) (el : Element)
    (h : Hook.State) (evs : list (gmap string Value * Event)) :
  effectDeps (steps (mount props el h) evs) =
  Some (numberWithCode (hook (steps (mount props el h) evs))).
Proof.
  destruct evs as [|pe evs _] using rev_ind.
  - unfold steps, mount. cbn [fold_left]. by rewrite commit_effectDeps, commit_hook.
  - rewrite steps_snoc. unfold step. by rewrite commit_effectDeps, commit_hook.
Qed.

Lemma mount_calls_handled (props : gmap string Value) (el : Element)
    (h : Hook.State) (f : Callback) :
  props !! "onChange" = Some (VFun f) ->
  onChangeCalls (mount props el h) = [(f, {| target_value := numberWithCode h |})].
Proof. intros Hf. unfold mount. by rewrite commit_new_handled with (f := f). Qed.

Lemma mounted_calls_invariant (props : gmap string Value) (el : Element)
    (h : Hook.State) (evs : list (gmap string Value * Event)) :
  handled props ->
  Forall (fun pe => handled pe.1) evs ->
  last (emitted (onChangeCalls (steps (mount props el h) evs))) =
    Some (numberWithCode (hook (steps (mount props el h) evs))) /\
  distinct_neighbours (emitted (onChangeCalls (steps (mount props el h) evs))).
Proof.
  intros [f0 Hf0]. induction evs as [|[p ev] evs IH] using rev_ind; intros Hall.
  - unfold steps. cbn [fold_left].
    rewrite (mount_calls_handled _ _ _ _ Hf0). unfold mount.
    by rewrite commit_hook.
  - apply Forall_app in Hall as [Hall Hp]. apply Forall_singleton in Hp as [f Hf].
    simpl in Hf. destruct (IH Hall) as [Hlast Hdist]. clear IH.
    rewrite steps_snoc. cbn [fst snd].
    pose proof (mounted_settled props el h evs) as Hset.
    set (w := steps (mount props el h) evs) in *.
    unfold step. rewrite commit_hook.
    destruct (handler_onChangeCalls w ev) as [Hcalls Hdeps].
    set (w1 := run (handler w ev) w) in *.
    destruct (decide (numberWithCode (hook w1) = numberWithCode (hook w)))
      as [Heq|Hne].
    + rewrite commit_same by congruence. rewrite Hcalls. by rewrite Heq.
    + rewrite (commit_new_handled p w1 f) by congruence.
      rewrite Hcalls, emitted_snoc. split; [apply last_snoc|].
      apply distinct_neighbours_snoc; [done|].
      intros d Hd. simpl. congruence.
Qed.

(** X1: at the first commit the effect runs although nothing has changed:
    props with an [onChange] handler receive exactly one call, carrying the
    combined number of the initial state; props without one receive none. *)
Theorem mount_emits_initial_number
    (props : gmap string Value) (el : Element) (h : Hook.State) :
  (forall f : Callback,
     props !! "onChange" = Some (VFun f) ->
     onChangeCalls (mount props el h) =
     [(f, {| target_value := numberWithCode h |})]) /\
  (~ handled props -> onChangeCalls (mount props el h) = []) /\
  effectDeps (mount props el h) = Some (numberWithCode h) /\
  hook (mount props el h) = h.
Proof.
  split; [apply mount_calls_handled|]. unfold mount.
  split; [intros Hno; by rewrite commit_unhandled|].
  by rewrite commit_effectDeps, commit_hook.
Qed.

(** X2: an event never removes or changes a call made before, and adds at
    most one: either the calls are those of before, or one call to the
    handler of the current props is appended, carrying the combined number
    the event left. *)
Theorem step_adds_at_most_one_call
    (props : gmap string Value) (w : World) (ev : Event) :
  onChangeCalls (step props w ev) = onChangeCalls w \/
  exists f : Callback,
    props !! "onChange" = Some (VFun f) /\
    onChangeCalls (step props w ev) =
    onChangeCalls w ++
      [(f, {| target_value := numberWithCode (hook (step props w ev)) |})].
Proof.
  unfold step. rewrite commit_hook.
  destruct (handler_onChangeCalls w ev) as [Hcalls _].
  set (w1 := run (handler w ev) w) in *.
  unfold commit, useEffect. case_bool_decide; [by left|].
  destruct (callOnChangeProp_cases (props !! "onChange")
              (numberWithCode (hook w1))) as [->|(f & Hf & ->)].
  - by left.
  - right. exists f. split; [done|]. simpl. by rewrite Hcalls.
Qed.

(** X3: an event that leaves the combined number of the commit before
    (a render, a country chosen while the number is empty when that leaves
    the combination as it was) makes no call to [onChange], whatever the
    props. *)
Theorem no_call_when_number_unchanged
    (props : gmap string Value) (w : World) (ev : Event) (d : string) :
  effectDeps w = Some d ->
  numberWithCode (hook (step props w ev)) = d ->
  onChangeCalls (step props w ev) = onChangeCalls w /\
  effectDeps (step props w ev) = Some d.
Proof.
  intros Hd Hsame. unfold step in *. rewrite commit_hook in Hsame.
  destruct (handler_onChangeCalls w ev) as [Hcalls Hdeps].
  rewrite commit_same by congruence. by rewrite Hcalls, Hdeps.
Qed.

(** X4: when every render has an [onChange] handler, the last call made
    carries the combined number of the current state, after the first commit
    and after every event: the parent always holds the current number. *)
Theorem last_call_carries_current_number
    (props : gmap string Value) (el : Element) (h : Hook.State)
    (evs : list (gmap string Value * Event)) :
  handled props ->
  Forall (fun pe => handled pe.1) evs ->
  last (emitted (onChangeCalls (steps (mount props el h) evs))) =
  Some (numberWithCode (hook (steps (mount props el h) evs))).
Proof. intros Hp Hall. by apply mounted_calls_invariant. Qed.

(** X5: when every render has an [onChange] handler, no two calls in a row
    carry the same combined number. *)
Theorem no_repeated_neighbour_calls
    (props : gmap string Value) (el : Element) (h : Hook.State)
    (evs : list (gmap string Value * Event)) :
  handled props ->
  Forall (fun pe => handled pe.1) evs ->
  distinct_neighbours (emitted (onChangeCalls (steps (mount props el h) evs))).
Proof. intros Hp Hall. by apply mounted_calls_invariant. Qed.

(** ** More on the search *)

Lemma includes_empty_term (s : string) : Js.includes s "" = true.
Proof. by destruct s. Qed.

Lemma includes_length (s t : string) :
  Js.includes s t = true -> String.length t <= String.length s.
Proof.
  intros H. apply includes_spec in H as (pre & post & ->).
  rewrite !length_append. lia.
Qed.

(** X6: an empty search term matches every option. *)
Theorem comparator_empty_term (o : SelectOption) : comparator "" o = true.
Proof. unfold comparator. apply includes_empty_term. Qed.

(** X7: the case of the letters A to Z of a search term does not matter: a
    term of ASCII characters, its upper-case form and its lower-case form
    match the same options, whatever their text. *)
Theorem comparator_ignores_case (term : string) (o : SelectOption) :
  Js.isAscii term = true ->
  comparator (Js.upperAscii term) o = comparator term o /\
  comparator (Js.lowerAscii term) o = comparator term o.
Proof.
  intros Hterm. unfold comparator.
  by destruct (toLowerCase_case term Hterm) as [-> ->].
Qed.

(** X8: when a term of ASCII characters matches an option, so does what is
    left of it when characters are dropped from its end or its start:
    typing more ASCII characters never brings back an option that a shorter
    form of the term had ruled out. *)
Theorem comparator_part_of_term (t u : string) (o : SelectOption) :
  Js.isAscii t = true ->
  Js.isAscii u = true ->
  comparator (t +:+ u) o = true ->
  comparator t o = true /\ comparator u o = true.
Proof.
  intros Ht Hu. unfold comparator.
  rewrite !toLowerCase_ascii with (s := t +:+ u)
    by (by rewrite isAscii_app, Ht, Hu).
  rewrite (toLowerCase_ascii t Ht), (toLowerCase_ascii u Hu).
  rewrite lowerAscii_app, !includes_spec.
  intros (pre & post & H). split.
  - exists pre, (Js.lowerAscii u +:+ post). by rewrite H, append_assoc.
  - exists (pre +:+ Js.lowerAscii t), post. by rewrite H, !append_assoc.
Qed.

(** X9: for an option whose search text is made of ASCII characters, a term
    of ASCII characters longer than that text never matches. *)
Theorem comparator_long_term (term : string) (o : SelectOption) :
  Js.isAscii term = true ->
  Js.isAscii (searchTerm o) = true ->
  String.length (searchTerm o) < String.length term ->
  comparator term o = false.
Proof.
  intros Hterm Htext Hlen. unfold comparator.
  rewrite !toLowerCase_ascii by done.
  destruct (Js.includes _ _) eqn:H; [|done].
  apply includes_length in H. rewrite !length_lowerAscii in H. lia.
Qed.

(** ** More on the selected option *)

Lemma find_iso_unique (o : SelectOption) :
  In o countryOptions ->
  NoDup (map iso (values IsoToCountryMap)) ->
  find (fun o' => String.eqb (iso (country o')) (iso (country o))) countryOptions
  = Some o.
Proof.
  intros Ho Hnd.
  destruct (find _ countryOptions) as [o'|] eqn:Hfind.
  - apply find_some in Hfind as [Ho' Hiso]. apply String.eqb_eq in Hiso.
    apply countryOptions_In in Ho as (c & Hc & ->).
    apply countryOptions_In in Ho' as (c' & Hc' & ->). simpl in Hiso.
    by rewrite (NoDup_iso_unique _ _ _ Hnd Hc' Hc Hiso).
  - apply (find_none _ _ Hfind) in Ho. by apply String.eqb_neq in Ho.
Qed.

(** X10: the selected option is always one of the options it was looked up
    in: it is missing exactly when there are no options; otherwise it has
    the wanted iso, or it is the first option and no option has that iso. *)
Theorem selectedCountryOption_member (opts : list SelectOption) (i : CountryIso) :
  (selectedCountryOption opts i = None <-> opts = []) /\
  (forall o : SelectOption,
     selectedCountryOption opts i = Some o ->
     In o opts /\
     (iso (country o) = i \/
      (head opts = Some o /\ forall o', In o' opts -> iso (country o') <> i))).
Proof.
  unfold selectedCountryOption.
  destruct (find _ opts) as [o'|] eqn:Hfind.
  - apply find_some in Hfind as [Ho' Hiso]. apply String.eqb_eq in Hiso.
    split.
    + split; [done | intros ->; destruct Ho'].
    + intros o [= <-]. split; [done | by left].
  - split.
    + by destruct opts.
    + intros o Ho. split.
      * destruct opts; simplify_eq/=. by left.
      * right. split; [done|]. intros o' Ho'.
        apply (find_none _ _ Hfind) in Ho'. by apply String.eqb_neq in Ho'.
Qed.

(** X11: choosing an option makes it the selected one: when the isos of the
    table are distinct, the iso that the [onChange] of [Select] hands to
    [setIso] for an option of the dropdown selects that very option. *)
Theorem chosen_option_is_selected (current : option Element) (o : SelectOption) :
  In o countryOptions ->
  NoDup (map iso (values IsoToCountryMap)) ->
  exists (i : CountryIso) (effs : list Effect),
    selectOnChange current o = SetIso i :: effs /\
    selectedCountryOption countryOptions i = Some o.
Proof.
  intros Ho Hnd. eexists _, _. split; [reflexivity|].
  unfold selectedCountryOption. by rewrite find_iso_unique.
Qed.

Lemma iso_prefix_inj (a b r r' : string) :
  ~ In " "%char (Js.chars a) -> ~ In " "%char (Js.chars b) ->
  a +:+ " " +:+ r = b +:+ " " +:+ r' -> a = b.
Proof.
  revert b. induction a as [|x a IH]; intros [|d b] Ha Hb H; [done| | |].
  - rewrite append_cons in H. injection H as <- _. exfalso. apply Hb. by left.
  - rewrite append_cons in H. injection H as -> _. exfalso. apply Ha. by left.
  - rewrite !append_cons in H. injection H as -> H. f_equal.
    apply IH; [| |done].
    + intros Hin. apply Ha. by right.
    + intros Hin. apply Hb. by right.
Qed.

(** X12: when the isos of the table are distinct and contain no space, the
    [value] strings of the options are distinct, so the [value] handed to
    [Select] names one option only. *)
Theorem option_values_distinct :
  (forall c, In c (values IsoToCountryMap) -> ~ In " "%char (Js.chars (iso c))) ->
  NoDup (map iso (values IsoToCountryMap)) ->
  NoDup (map value countryOptions).
Proof.
  unfold countryOptions. induction (values IsoToCountryMap) as [|c l IH].
  - intros _ _. constructor.
  - intros Hsp Hnd. simpl in *. apply NoDup_cons in Hnd as [Hc Hnd].
    apply NoDup_cons. split.
    + rewrite list_elem_of_In, in_map_iff. intros (o & Hval & Ho).
      apply in_map_iff in Ho as (c' & <- & Hc'). simpl in Hval.
      apply Hc. rewrite list_elem_of_In, in_map_iff. exists c'.
      split; [|done]. eapply iso_prefix_inj; [| |exact Hval]; auto.
    + apply IH; [|done]. intros c' Hc'. apply Hsp. by right.
Qed.

(** ** More on the props of the number input *)

Lemma rest_destructured (props : gmap string Value) (k : string) :
  k = "onChange" \/ k = "value" \/ k = "locationBasedCountryIso" \/ k = "sx" ->
  rest props !! k = None.
Proof.
  unfold rest. intros [->|[->|[->| ->]]];
    rewrite ?lookup_delete_eq, ?lookup_delete_ne by done;
    rewrite ?lookup_delete_eq, ?lookup_delete_ne by done;
    rewrite ?lookup_delete_eq, ?lookup_delete_ne by done;
    by rewrite ?lookup_delete_eq.
Qed.

Lemma rest_agree (props props' : gmap string Value) :
  (forall k, k <> "onChange" -> k <> "value" -> k <> "locationBasedCountryIso" ->
             props !! k = props' !! k) ->
  rest props = rest props'.
Proof.
  intros Hagree. apply map_eq. intros k.
  destruct (decide (k = "onChange")) as [->|?];
    [by rewrite !rest_destructured by auto|].
  destruct (decide (k = "value")) as [->|?];
    [by rewrite !rest_destructured by auto|].
  destruct (decide (k = "locationBasedCountryIso")) as [->|?];
    [by rewrite !rest_destructured by auto|].
  destruct (decide (k = "sx")) as [->|?];
    [by rewrite !rest_destructured by auto|].
  rewrite !rest_lookup by done. by apply Hagree.
Qed.

(** X13: every prop of the component other than [onChange], [value],
    [locationBasedCountryIso] and [sx] reaches the number input as the
    caller gave it, also [onPaste], [type] and [maxLength], which then
    replace the component's own; [locationBasedCountryIso] never reaches
    it, and [type] is 'tel' when the caller gives none. *)
Theorem props_reach_input (props : gmap string Value) (w : World) :
  (forall (k : string) (v : Value),
     k <> "onChange" -> k <> "value" -> k <> "locationBasedCountryIso" ->
     k <> "sx" -> props !! k = Some v ->
     inputProps props w !! k = Some v) /\
  inputProps props w !! "locationBasedCountryIso" = None /\
  (props !! "type" = None -> inputProps props w !! "type" = Some (VStr "tel")).
Proof.
  unfold inputProps. repeat split.
  - intros k v ? ? ? ? Hk. apply lookup_union_Some_l. by rewrite rest_lookup.
  - rewrite lookup_union_r by (apply rest_destructured; auto).
    by simplify_map_eq.
  - intros H. rewrite lookup_union_r by (by rewrite rest_lookup).
    by simplify_map_eq.
Qed.

(** X14: the props of the number input do not depend on the [onChange],
    [value] and [locationBasedCountryIso] the caller gave: two props objects
    that agree on every other key give the same input props in the same
    state. *)
Theorem input_ignores_destructured_props
    (props props' : gmap string Value) (w : World) :
  (forall k, k <> "onChange" -> k <> "value" -> k <> "locationBasedCountryIso" ->
             props !! k = props' !! k) ->
  inputProps props w = inputProps props' w.
Proof.
  intros Hagree. unfold inputProps. by rewrite (rest_agree props props').
Qed.


(** ** Focus *)

(** X16: the keyboard focus moves only when a country is chosen while the
    ref holds the number input, and then to that input: typing, pasting and
    rendering leave it where it was, and so does choosing a country while
    the ref is empty. *)
Theorem focus_moves_only_on_selection
    (props : gmap string Value) (w : World) (ev : Event) :
  activeElement (step props w ev) = activeElement w \/
  exists (o : SelectOption) (el : Element),
    ev = SelectCountry o /\ phoneInputRef w = Some el /\
    activeElement (step props w ev) = Some el.
Proof.
  unfold step. rewrite commit_activeElement.
  destruct ev as [e|c|o|]; simpl.
  - left. unfold handlePaste. by destruct (Js.includes _ _).
  - left. unfold handlePhoneNumberChange. simpl. by destruct (Js.includes _ _).
  - unfold selectOnChange. destruct (phoneInputRef w) as [el|] eqn:Hel.
    + right. by exists o, el.
    + by left.
  - by left.
Qed.

(** ** What a render shows *)

Lemma selected_None (w : World) : selected w = None <-> optionsStore w = [].
Proof.
  unfold selected, selectedCountryOption.
  destruct (find _ (optionsStore w)) eqn:Hfind.
  - split; [done|]. intros H. rewrite H in Hfind. discriminate.
  - by destruct (optionsStore w).
Qed.

(** X17: a render throws exactly when there are no options: from the first
    commit on, [PhoneInputBase] returns a view if and only if the country
    table has an entry. *)
Theorem render_defined_iff_table_nonempty
    (props : gmap string Value) (w : World) :
  (PhoneInputBase props w = None <-> optionsStore w = []) /\
  (forall (props0 : gmap string Value) (el : Element) (h : Hook.State)
          (evs : list (gmap string Value * Event)),
     w = steps (mount props0 el h) evs ->
     (is_Some (PhoneInputBase props w) <-> values IsoToCountryMap <> [])).
Proof.
  assert (Hnone : PhoneInputBase props w = None <-> optionsStore w = []).
  { rewrite <- selected_None. unfold PhoneInputBase.
    by destruct (selected w). }
  split; [done|]. intros props0 el h evs ->.
  rewrite <- not_eq_None_Some, Hnone, mounted_optionsStore.
  unfold countryOptions. by destruct (values IsoToCountryMap).
Qed.

(** X18: when the isos of the table are distinct and the current ISO is the
    iso of an entry, a render after the first commit shows that entry
    throughout: the [value] of [Select] is its "iso name code", the text
    before the number is "+" and its dial code, and the button shows its
    iso. *)
Theorem render_shows_current_country
    (props props0 : gmap string Value) (el : Element) (h : Hook.State)
    (evs : list (gmap string Value * Event)) (c : CountryEntry) :
  NoDup (map iso (values IsoToCountryMap)) ->
  In c (values IsoToCountryMap) ->
  iso c = Hook.iso (hook (steps (mount props0 el h) evs)) ->
  exists v : View,
    PhoneInputBase props (steps (mount props0 el h) evs) = Some v /\
    selectValue v = iso c +:+ " " +:+ name c +:+ " " +:+ code c /\
    dialCode v = "+" +:+ code c /\
    buttonText v = iso c.
Proof.
  intros Hnd Hc Hiso. unfold PhoneInputBase. rewrite mounted_selected.
  unfold selectedCountryOption. rewrite <- Hiso.
  assert (Ho : In (createSelectOption c) countryOptions).
  { apply countryOptions_In. by exists c. }
  pose proof (find_iso_unique _ Ho Hnd) as Hfind. simpl in Hfind.
  rewrite Hfind. eexists. split; [reflexivity|]. by simpl.
Qed.

(** X19: when no entry of the table has the current ISO, a render after the
    first commit shows the first entry in [Select] and before the number,
    while the button still shows the current ISO, which is not the iso of
    that entry. *)
Theorem render_of_unknown_iso
    (props props0 : gmap string Value) (el : Element) (h : Hook.State)
    (evs : list (gmap string Value * Event)) (c0 : CountryEntry) :
  head (values IsoToCountryMap) = Some c0 ->
  (forall c, In c (values IsoToCountryMap) ->
             iso c <> Hook.iso (hook (steps (mount props0 el h) evs))) ->
  exists v : View,
    PhoneInputBase props (steps (mount props0 el h) evs) = Some v /\
    selectValue v = value (createSelectOption c0) /\
    dialCode v = "+" +:+ code c0 /\
    buttonText v = Hook.iso (hook (steps (mount props0 el h) evs)) /\
    buttonText v <> iso c0.
Proof.
  intros Hhead Hnone. unfold PhoneInputBase. rewrite mounted_selected.
  unfold selectedCountryOption.
  destruct (find _ countryOptions) as [o|] eqn:Hfind.
  - exfalso. apply find_some in Hfind as [Ho Hiso].
    apply String.eqb_eq in Hiso.
    apply countryOptions_In in Ho as (c & Hc & ->). by apply (Hnone c).
  - unfold countryOptions. destruct (values IsoToCountryMap) as [|c l];
      simplify_eq/=.
    eexists. split; [reflexivity|]. simpl. repeat split.
    intros Heq. apply (Hnone c0); [by left | done].
Qed.

(** X20: the disabled flag of the country button and the error flag of the
    box are the very props the number input receives: [isDisabled] and
    [hasError] of the caller reach all of them alike. *)
Theorem flags_shared_with_input
    (props : gmap string Value) (w : World) (v : View) :
  PhoneInputBase props w = Some v ->
  buttonDisabled v = props !! "isDisabled" /\
  boxHasError v = props !! "hasError" /\
  input v !! "isDisabled" = buttonDisabled v /\
  input v !! "hasError" = boxHasError v.
Proof.
  unfold PhoneInputBase. destruct (selected w) as [o|]; [|done].
  intros [= <-]. simpl. rewrite !rest_lookup by done.
  unfold inputProps. repeat split.
  - destruct (props !! "isDisabled") as [x|] eqn:Hx.
    + apply lookup_union_Some_l. by rewrite rest_lookup.
    + rewrite lookup_union_r by (by rewrite rest_lookup). by simplify_map_eq.
  - destruct (props !! "hasError") as [x|] eqn:Hx.
    + apply lookup_union_Some_l. by rewrite rest_lookup.
    + rewrite lookup_union_r by (by rewrite rest_lookup). by simplify_map_eq.
Qed.

(** X21: the list item of an option shows the name and "+code" of its
    country, with the check mark exactly when [Select] reports it selected;
    for the selected option, its "+code" is the text the component shows
    before the number. *)
Theorem list_item_matches_prefix
    (props : gmap string Value) (w : World) (v : View) (o : SelectOption)
    (index : nat) (isSelected : bool) :
  PhoneInputBase props w = Some v ->
  selected w = Some o ->
  itemCode (renderOption o index isSelected) = dialCode v /\
  itemName (renderOption o index isSelected) = name (country o) /\
  checkVisible (renderOption o index isSelected) = isSelected /\
  checkVisible (CountryCodeListItem None (country o)) = false.
Proof.
  unfold PhoneInputBase. intros Hv Ho. rewrite Ho in Hv.
  injection Hv as <-. simpl. by destruct isSelected.
Qed.

End PhoneInputBase.

(** ** The component on concrete inputs *)

Example includes_plus_inside : Js.includes "1+2" "+" = true.
Proof. reflexivity. Qed.

Example includes_no_plus : Js.includes "2025550123" "+" = false.
Proof. reflexivity. Qed.

Example includes_empty : Js.includes "" "" = true.
Proof. reflexivity. Qed.

Example toLowerCase_mixed :
  Js.toLowerCase sampleUnicodeLower "US United States 1" = "us united states 1".
Proof. reflexivity. Qed.

Example searchTerm_gr : searchTerm (createSelectOption gr) = "gr Greece 30".
Proof. reflexivity. Qed.

Example toLowerCase_latin1 :
  Js.toLowerCase sampleUnicodeLower "Åland Islands" = "åland islands".
Proof. reflexivity. Qed.

Example comparator_latin1 :
  comparator sampleUnicodeLower "åland" (createSelectOption ax) = true.
Proof. reflexivity. Qed.

Example comparator_upper :
  comparator sampleUnicodeLower "GREECE" (createSelectOption gr) = true.
Proof. reflexivity. Qed.

Example comparator_across_fields :
  comparator sampleUnicodeLower "ce 3" (createSelectOption gr) = true.
Proof. reflexivity. Qed.

Example comparator_miss :
  comparator sampleUnicodeLower "grc" (createSelectOption gr) = false.
Proof. reflexivity. Qed.

Example selected_gb :
  selectedCountryOption (countryOptions sampleMap) "gb" = Some (createSelectOption gb).
Proof. reflexivity. Qed.

Example selected_empty_table : selectedCountryOption (countryOptions []) "gb" = None.
Proof. reflexivity. Qed.

Example handlePaste_local :
  handlePaste (samplePaste "2025550123") = [PreventDefault; SetNumber "2025550123"].
Proof. reflexivity. Qed.

Example selectOnChange_unmounted :
  selectOnChange None (createSelectOption gr) = [SetIso "gr"].
Proof. reflexivity. Qed.

Lemma route_on_contains_plus_witness :
  hook (run sampleParse (handlePaste (samplePaste "+306912345678")) sampleWorld)
    = {| Hook.iso := "gr"; Hook.number := "6912345678" |} /\
  hook (run sampleParse (handlePhoneNumberChange (sampleTyped "2025550123")) sampleWorld)
    = {| Hook.iso := "us"; Hook.number := "2025550123" |}.
Proof.
  split.
  - refine (proj1 (proj2 (proj2 (proj1
      (route_on_contains_plus sampleParse sampleWorld "+306912345678"
         (samplePaste "+306912345678") (sampleTyped "+306912345678")
         eq_refl eq_refl) _)))).
    simpl. by left.
  - refine (proj2 (proj2 (proj2 (proj2
      (route_on_contains_plus sampleParse sampleWorld "2025550123"
         (samplePaste "2025550123") (sampleTyped "2025550123")
         eq_refl eq_refl) _)))).
    simpl. intros H. decompose [or] H; discriminate || done.
Defined.

Lemma route_iff_contains_plus_witness :
  handlePhoneNumberChange (sampleTyped "+306912345678")
    = [SetNumberAndIso "+306912345678"] /\
  handlePaste (samplePaste "+306912345678")
    = [PreventDefault; SetNumberAndIso "+306912345678"] /\
  handlePhoneNumberChange (sampleTyped "2025550123") = [SetNumber "2025550123"] /\
  handlePaste (samplePaste "2025550123") = [PreventDefault; SetNumber "2025550123"].
Proof.
  destruct (route_iff_contains_plus (samplePaste "+306912345678")
              (sampleTyped "+306912345678")) as (_ & _ & Hc & He & _).
  destruct (route_iff_contains_plus (samplePaste "2025550123")
              (sampleTyped "2025550123")) as (_ & _ & _ & _ & Hlc & Hle).
  split; [exact (Hc eq_refl)|]. split; [exact (He eq_refl)|].
  split; [apply Hlc | apply Hle];
    simpl; intros H; decompose [or] H; discriminate || done.
Defined.

(** C4, as stated, fails: "1+2" does not start with "+", and both handlers
    replace the whole number and the country all the same. *)
Lemma plus_inside_replaces_whole_number :
  Js.startsWith "1+2" "+" = false /\
  handlePhoneNumberChange (sampleTyped "1+2") = [SetNumberAndIso "1+2"] /\
  handlePaste (samplePaste "1+2") = [PreventDefault; SetNumberAndIso "1+2"] /\
  hook (run sampleParse (handlePhoneNumberChange (sampleTyped "1+2")) sampleWorld)
    = sampleParse "1+2".
Proof. repeat split. Qed.

Lemma paste_same_as_change_witness :
  run sampleParse (handlePaste (samplePaste "+306912345678")) sampleWorld
    = run sampleParse (handlePhoneNumberChange (sampleTyped "+306912345678")) sampleWorld.
Proof.
  exact (proj2 (proj2
    (paste_same_as_change sampleParse sampleWorld (samplePaste "+306912345678")
       (sampleTyped "+306912345678") eq_refl))).
Defined.

Lemma selected_option_of_iso_witness :
  (exists o : SelectOption,
     selectedCountryOption (countryOptions sampleMap) "gr" = Some o /\ country o = gr) /\
  selectedCountryOption (countryOptions sampleMap) "zz" = Some (createSelectOption us).
Proof.
  destruct (selected_option_of_iso sampleMap "gr") as (Hfound & _ & _).
  destruct (selected_option_of_iso sampleMap "zz") as (_ & Hmiss & _).
  split.
  - destruct (Hfound gr) as (o & Ho & _ & _ & _ & Huniq).
    + simpl. auto.
    + reflexivity.
    + exists o. split; [exact Ho|]. apply Huniq. simpl.
      repeat constructor; rewrite ?list_elem_of_In; simpl;
        intros H; decompose [or] H; discriminate || done.
  - refine (proj1 (Hmiss _)). simpl.
    intros c H; decompose [or] H; subst; discriminate || done.
Defined.

Lemma sampleUnicodeLower_ascii (s : string) :
  Js.isAscii s = true -> sampleUnicodeLower s = Js.lowerAscii s.
Proof.
  induction s as [|c s IH]; [done|]. simpl.
  intros [Hc Hs]%andb_true_iff.
  destruct (N.eqb_spec (N_of_ascii c) 195) as [Heq|_].
  - rewrite Heq in Hc. discriminate.
  - by rewrite IH.
Qed.

Lemma sample_toLowerCase (s : string) :
  Js.toLowerCase sampleUnicodeLower s = sampleUnicodeLower s.
Proof.
  unfold Js.toLowerCase. destruct (Js.isAscii s) eqn:H; [|done].
  by rewrite sampleUnicodeLower_ascii.
Qed.

Lemma sampleUnicodeLower_cons (c d : ascii) (s : string) :
  sampleUnicodeLower (String c (String d s)) =
  if (N_of_ascii c =? 195)%N
  then String c (String (sampleLatin1 d) (sampleUnicodeLower s))
  else String (Js.lower c) (sampleUnicodeLower (String d s)).
Proof. reflexivity. Qed.

Lemma sampleUnicodeLower_space (a b : string) :
  sampleUnicodeLower (a +:+ " " +:+ b) =
  sampleUnicodeLower a +:+ " " +:+ sampleUnicodeLower b.
Proof.
  assert (H : forall n a, String.length a < n ->
    sampleUnicodeLower (a +:+ " " +:+ b) =
    sampleUnicodeLower a +:+ " " +:+ sampleUnicodeLower b).
  { induction n as [|n IH]; [intros; lia|].
    intros [|c [|d a']] Hlen.
    - reflexivity.
    - change (String c "" +:+ " " +:+ b) with (String c (String " " b)).
      rewrite sampleUnicodeLower_cons. simpl.
      by destruct (N_of_ascii c =? 195)%N.
    - change (String c (String d a') +:+ " " +:+ b)
        with (String c (String d (a' +:+ " " +:+ b))).
      simpl in Hlen. rewrite !sampleUnicodeLower_cons.
      destruct (N_of_ascii c =? 195)%N.
      + rewrite (IH a') by lia. reflexivity.
      + change (String d (a' +:+ " " +:+ b))
          with (String d a' +:+ " " +:+ b).
        rewrite (IH (String d a')) by (simpl; lia). reflexivity. }
  apply (H (S (String.length a))). lia.
Qed.

Lemma sample_splits_at_space :
  Js.splits_at_space (Js.toLowerCase sampleUnicodeLower).
Proof.
  intros a b. rewrite !sample_toLowerCase. apply sampleUnicodeLower_space.
Qed.

Lemma comparator_matches_substring_witness :
  (comparator sampleUnicodeLower "gr" (createSelectOption gr) = true /\
   comparator sampleUnicodeLower "Greece" (createSelectOption gr) = true /\
   comparator sampleUnicodeLower "30" (createSelectOption gr) = true) /\
  (comparator sampleUnicodeLower "ax" (createSelectOption ax) = true /\
   comparator sampleUnicodeLower "Åland Islands" (createSelectOption ax) = true /\
   comparator sampleUnicodeLower "358" (createSelectOption ax) = true) /\
  comparator sampleUnicodeLower "GREECE" (createSelectOption gr) = true.
Proof.
  assert (Hgr : In (createSelectOption gr) (countryOptions sampleMap))
    by (simpl; auto).
  assert (Hax : In (createSelectOption ax) (countryOptions nordicMap))
    by (simpl; auto).
  destruct (comparator_matches_substring sampleMap sampleUnicodeLower "gree"
              (createSelectOption gr) Hgr) as (_ & _ & Hfields & Hupper).
  destruct (comparator_matches_substring nordicMap sampleUnicodeLower "åland"
              (createSelectOption ax) Hax) as (_ & _ & Hnordic & _).
  split; [exact (Hfields (or_introl eq_refl))|].
  split; [exact (Hnordic (or_intror sample_splits_at_space))|].
  exact (proj1 (proj2 (Hupper eq_refl))).
Defined.

Lemma country_options_invariant_witness :
  optionsStore
    (steps sampleParse sampleNumberWithCode
       (mount sampleMap sampleParse sampleNumberWithCode sampleProps 7
          {| Hook.iso := "us"; Hook.number := "" |}) sampleEvents) !! 1
  = Some (createSelectOption gr).
Proof.
  exact (proj2 (proj2 (proj2 (country_options_invariant sampleMap sampleParse
                                sampleNumberWithCode))
                  sampleProps 7 {| Hook.iso := "us"; Hook.number := "" |}
                  sampleEvents) 1 "gr" gr eq_refl).
Defined.

Example write_changes_store :
  optionsStore (exec sampleParse (WriteOptions []) sampleWorld) = [] /\
  optionsStore sampleWorld <> [].
Proof. by split. Qed.

Lemma change_event_on_new_number_witness :
  onChangeCalls
    (step sampleParse sampleNumberWithCode {["onChange" := VFun 1]} sampleWorld
       (Change (sampleTyped "2025550123")))
  = [(1, {| target_value := "+12025550123" |})].
Proof.
  refine (proj1 (change_event_on_new_number sampleParse sampleNumberWithCode
            {["onChange" := VFun 1]} sampleWorld
            (Change (sampleTyped "2025550123")) "" eq_refl _) 1 _).
  - vm_compute. discriminate.
  - apply lookup_singleton_eq.
Defined.

(** C3, as stated, fails: the combined number changes from "" to
    "+12025550123" while the props carry no [onChange], and no change event
    is emitted. *)
Lemma no_change_event_without_handler :
  effectDeps sampleWorld = Some "" /\
  sampleNumberWithCode
    (hook (step sampleParse sampleNumberWithCode ∅ sampleWorld
             (Change (sampleTyped "2025550123")))) = "+12025550123" /\
  onChangeCalls
    (step sampleParse sampleNumberWithCode ∅ sampleWorld
       (Change (sampleTyped "2025550123"))) = [].
Proof. repeat split. Qed.

Lemma select_country_sets_iso_and_focus_witness :
  Hook.iso (hook (step sampleParse sampleNumberWithCode ∅ sampleWorld
                    (SelectCountry (createSelectOption gr)))) = "gr" /\
  activeElement (step sampleParse sampleNumberWithCode ∅ sampleWorld
                   (SelectCountry (createSelectOption gr))) = Some 7.
Proof.
  destruct (select_country_sets_iso_and_focus sampleMap sampleParse
              sampleNumberWithCode ∅ sampleWorld (createSelectOption gr))
    as (Hiso & _ & Hfocus & _).
  split; [exact Hiso | exact (proj2 (Hfocus 7 eq_refl))].
Defined.

Lemma max_length_unless_overridden_witness :
  inputProps sampleFormatted {["placeholder" := VStr "Phone"]} sampleWorld
    !! "maxLength" = Some (VNum 25).
Proof.
  refine (proj1 (max_length_unless_overridden sampleFormatted
            {["placeholder" := VStr "Phone"]} sampleWorld) _).
  by apply lookup_singleton_ne.
Defined.

(** C8, as stated, fails: props that carry [maxLength] 50 give the number
    input that limit, and a typed string of 26 characters is handed whole to
    the setter. *)
Lemma max_length_overridden_by_props :
  inputProps sampleFormatted {["maxLength" := VNum 50]} sampleWorld
    !! "maxLength" = Some (VNum 50) /\
  String.length "20255501232025550123202555" = 26 /\
  handlePhoneNumberChange (sampleTyped "20255501232025550123202555")
    = [SetNumber "20255501232025550123202555"].
Proof.
  split; [|by split].
  unfold inputProps. apply lookup_union_Some_l.
  rewrite rest_lookup by done. apply lookup_singleton_eq.
Qed.

Lemma number_input_is_controlled_witness :
  inputProps sampleFormatted ∅
    (step sampleParse sampleNumberWithCode ∅ sampleWorld
       (Paste (samplePaste "+306912345678"))) !! "value"
  = Some (VStr "(6912345678)").
Proof.
  exact (proj1 (number_input_is_controlled sampleParse sampleNumberWithCode
                  sampleFormatted ∅ sampleWorld
                  (Paste (samplePaste "+306912345678")))).
Defined.

(** ** Runs of the component on concrete inputs *)

Ltac solve_no_member :=
  unfold not; simpl; intros;
  repeat (subst; simpl in *;
          match goal with
          | H : _ \/ _ |- _ => destruct H
          | H : False |- _ => destruct H
          end);
  subst; simpl in *; try discriminate; try done.

Lemma sampleMap_NoDup : NoDup (map iso (values sampleMap)).
Proof.
  apply (bool_decide_unpack _). by vm_compute.
Qed.

Lemma sampleProps_handled : handled sampleProps.
Proof. exists 1. apply lookup_singleton_eq. Qed.

Lemma sampleEvents_handled : Forall (fun pe => handled pe.1) sampleEvents.
Proof. repeat constructor; apply sampleProps_handled. Qed.

Lemma no_call_when_number_unchanged_witness :
  onChangeCalls
    (step sampleParse sampleNumberWithCode sampleProps sampleWorld
       (SelectCountry (createSelectOption gr))) = [].
Proof.
  exact (proj1 (no_call_when_number_unchanged sampleParse sampleNumberWithCode
                  sampleProps sampleWorld (SelectCountry (createSelectOption gr))
                  "" eq_refl eq_refl)).
Defined.

Lemma last_call_carries_current_number_witness :
  last (emitted (onChangeCalls
    (steps sampleParse sampleNumberWithCode
       (mount sampleMap sampleParse sampleNumberWithCode sampleProps 7
          {| Hook.iso := "us"; Hook.number := "" |}) sampleEvents)))
  = Some "+302025550123".
Proof.
  exact (last_call_carries_current_number sampleMap sampleParse
           sampleNumberWithCode sampleProps 7
           {| Hook.iso := "us"; Hook.number := "" |} sampleEvents
           sampleProps_handled sampleEvents_handled).
Defined.

Lemma no_repeated_neighbour_calls_witness :
  distinct_neighbours (emitted (onChangeCalls
    (steps sampleParse sampleNumberWithCode
       (mount sampleMap sampleParse sampleNumberWithCode sampleProps 7
          {| Hook.iso := "us"; Hook.number := "" |}) sampleEvents))).
Proof.
  exact (no_repeated_neighbour_calls sampleMap sampleParse
           sampleNumberWithCode sampleProps 7
           {| Hook.iso := "us"; Hook.number := "" |} sampleEvents
           sampleProps_handled sampleEvents_handled).
Defined.

Example sample_run_calls :
  emitted (onChangeCalls
    (steps sampleParse sampleNumberWithCode
       (mount sampleMap sampleParse sampleNumberWithCode sampleProps 7
          {| Hook.iso := "us"; Hook.number := "" |}) sampleEvents))
  = [""; "+12025550123"; "+302025550123"].
Proof. reflexivity. Qed.

Lemma comparator_ignores_case_witness :
  comparator sampleUnicodeLower "GREECE" (createSelectOption gr)
  = comparator sampleUnicodeLower "Greece" (createSelectOption gr) /\
  comparator sampleUnicodeLower "greece" (createSelectOption ax)
  = comparator sampleUnicodeLower "Greece" (createSelectOption ax).
Proof.
  split.
  - exact (proj1 (comparator_ignores_case sampleUnicodeLower "Greece"
                    (createSelectOption gr) eq_refl)).
  - exact (proj2 (comparator_ignores_case sampleUnicodeLower "Greece"
                    (createSelectOption ax) eq_refl)).
Defined.

Lemma comparator_part_of_term_witness :
  comparator sampleUnicodeLower "gre" (createSelectOption gr) = true /\
  comparator sampleUnicodeLower "ece 3" (createSelectOption gr) = true.
Proof.
  exact (comparator_part_of_term sampleUnicodeLower "gre" "ece 3"
           (createSelectOption gr) eq_refl eq_refl eq_refl).
Defined.

Lemma comparator_long_term_witness :
  comparator sampleUnicodeLower "gr Greece 30 and more" (createSelectOption gr)
  = false.
Proof.
  refine (comparator_long_term sampleUnicodeLower "gr Greece 30 and more"
            (createSelectOption gr) eq_refl eq_refl _).
  simpl. lia.
Defined.

Lemma chosen_option_is_selected_witness :
  exists (i : CountryIso) (effs : list Effect),
    selectOnChange (Some 7) (createSelectOption gb) = SetIso i :: effs /\
    selectedCountryOption (countryOptions sampleMap) i = Some (createSelectOption gb).
Proof.
  refine (chosen_option_is_selected sampleMap (Some 7) (createSelectOption gb)
            _ sampleMap_NoDup).
  simpl. auto.
Defined.

Lemma option_values_distinct_witness :
  NoDup (map value (countryOptions sampleMap)).
Proof.
  refine (option_values_distinct sampleMap _ sampleMap_NoDup).
  solve_no_member.
Defined.

Lemma input_ignores_destructured_props_witness :
  inputProps sampleFormatted {["value" := VStr "+12025550123"]} sampleWorld
  = inputProps sampleFormatted ∅ sampleWorld.
Proof.
  refine (input_ignores_destructured_props sampleFormatted
            {["value" := VStr "+12025550123"]} ∅ sampleWorld _).
  intros k _ Hk _. by rewrite lookup_singleton_ne.
Defined.

Lemma render_shows_current_country_witness :
  exists v : View,
    PhoneInputBase sampleFormatted ∅
      (steps sampleParse sampleNumberWithCode
         (mount sampleMap sampleParse sampleNumberWithCode sampleProps 7
            {| Hook.iso := "us"; Hook.number := "" |}) sampleEvents) = Some v /\
    selectValue v = "gr Greece 30" /\
    dialCode v = "+30" /\
    buttonText v = "gr".
Proof.
  refine (render_shows_current_country sampleMap sampleParse sampleNumberWithCode
            sampleFormatted ∅ sampleProps 7
            {| Hook.iso := "us"; Hook.number := "" |} sampleEvents gr
            sampleMap_NoDup _ eq_refl).
  simpl. auto.
Defined.

Lemma render_of_unknown_iso_witness :
  exists v : View,
    PhoneInputBase sampleFormatted ∅
      (steps sampleParse sampleNumberWithCode
         (mount sampleMap sampleParse sampleNumberWithCode sampleProps 7
            {| Hook.iso := "zz"; Hook.number := "" |}) []) = Some v /\
    selectValue v = "us United States 1" /\
    dialCode v = "+1" /\
    buttonText v = "zz" /\
    buttonText v <> "us".
Proof.
  refine (render_of_unknown_iso sampleMap sampleParse sampleNumberWithCode
            sampleFormatted ∅ sampleProps 7
            {| Hook.iso := "zz"; Hook.number := "" |} [] us eq_refl _).
  solve_no_member.
Defined.

Lemma flags_shared_with_input_witness :
  exists v : View,
    PhoneInputBase sampleFormatted {["isDisabled" := VBool true]} sampleWorld
      = Some v /\
    buttonDisabled v = Some (VBool true) /\
    input v !! "isDisabled" = Some (VBool true).
Proof.
  eexists. split; [reflexivity|].
  destruct (flags_shared_with_input sampleFormatted
              {["isDisabled" := VBool true]} sampleWorld _ eq_refl)
    as (Hb & _ & Hi & _).
  split; [exact Hb | exact (eq_trans Hi Hb)].
Defined.

Lemma list_item_matches_prefix_witness :
  itemCode (renderOption (createSelectOption us) 0 true) = "+1" /\
  checkVisible (renderOption (createSelectOption us) 0 true) = true.
Proof.
  destruct (list_item_matches_prefix sampleFormatted ∅ sampleWorld _
              (createSelectOption us) 0 true eq_refl eq_refl)
    as (Hcode & _ & Hcheck & _).
  split; [exact Hcode | exact Hcheck].
Defined.
